(** * GSC -> PostgreSQL synchronisation job (app.py)

    A shallow embedding of the three pipeline stages of [app.py]
    ([fetch_gsc_data], [load_data_to_postgres], [trigger_gsc_sync]) and of
    the upsert statement the loader executes, followed by the properties of
    the pipeline that the specification states.

    Conventions.
    - Python [str] values are [string]s (byte sequences; a literal holding
      non-ASCII text is its UTF-8 encoding).
    - Python [int] is [Z]; the two float metrics are carried as [Q], they are
      only passed through.
    - Calls that leave the program (the Search Console client, psycopg2) are
      answered by an environment given as a function; the calls made are
      recorded in a trace, in program order.
    - [print] is not modelled. *)

From Stdlib Require Import ZArith List String Ascii Bool Lia QArith DecimalString.
Import ListNotations.
Open Scope string_scope.
Open Scope list_scope.
Open Scope Z_scope.

(** ** Python string operations used by the program *)

Module PyStr.

(** [sub in s] *)
Fixpoint contains (sub s : string) : bool :=
  if String.prefix sub s then true
  else match s with
       | EmptyString => false
       | String _ s' => contains sub s'
       end.

(** [str(n)] for an [int]. *)
Definition of_int (n : Z) : string := NilZero.string_of_int (Z.to_int n).

(** Truth value of a string: [bool(s)]. *)
Definition truthy (s : string) : bool :=
  match s with EmptyString => false | _ => true end.

(** Truth value of a value that is a string or [None]. *)
Definition truthy_opt (o : option string) : bool :=
  match o with Some s => truthy s | None => false end.

(** [x or d] where [x] is a string or [None] and [d] a string. *)
Definition or_default (x : option string) (d : string) : string :=
  match x with
  | Some s => if truthy s then s else d
  | None => d
  end.

(** No byte of [s] is [c]. *)
Fixpoint lacks (c : ascii) (s : string) : bool :=
  match s with
  | EmptyString => true
  | String c' s' => negb (Ascii.eqb c' c) && lacks c s'
  end.

End PyStr.

(** ** Constants of the module *)

Definition GSC_SITE_URL : string := "https://www.feirasderua.com.br/".
Definition GCP_KEY_PATH : string := "/etc/secrets/gsc_service_account.json".
Definition ROW_LIMIT_PER_REQUEST : Z := 5000.

(** ** Rows returned by the Search Analytics API

    One element of [response['rows']]: a JSON object with the fields
    [keys], [clicks], [impressions], [ctr], [position].  A field that is
    absent from the object is [None] here; the loader reads every field with
    [row.get(field, default)]. *)

Record gsc_row := {
  row_keys        : option (list string);
  row_clicks      : option Z;
  row_impressions : option Z;
  row_ctr         : option Q;
  row_position    : option Q
}.

(** ** fetch_gsc_data *)

Module Fetch.

(** The body of one [searchanalytics().query] request. *)
Record request_body := {
  startDate  : string;
  endDate    : string;
  dimensions : list string;
  rowLimit   : Z;
  startRow   : Z
}.

(** What [.execute()] does: it returns a response, whose ['rows'] entry may
    be absent, or raises [HttpError], or raises another exception. *)
Inductive api_reply :=
| Response (rows : option (list gsc_row))
| RaisesHttpError (e : string)
| RaisesException (e : string).

(** The client handle: the answer to a query for a site and a body. *)
Definition gsc_service := string -> request_body -> api_reply.

(** One run of the function: the pair [(all_rows | None, None | error_msg)]
    it returns ([None] while the loop has not been left) and the request
    bodies it sent, oldest first. *)
Record fetch_run := {
  returned : option (option (list gsc_row) * option string);
  requests : list request_body
}.

Definition mk_body (start_date_str end_date_str : string) (start_row : Z)
  : request_body :=
  {| startDate := start_date_str; endDate := end_date_str;
     dimensions := ["date"; "page"; "query"; "device"];
     rowLimit := ROW_LIMIT_PER_REQUEST; startRow := start_row |}.

Definition http_error_msg (e : string) : string := ("❌ ERRO API GSC: " ++ e)%string.
Definition unexpected_error_msg (e : string) : string :=
  ("❌ ERRO inesperado fetch GSC: " ++ e)%string.

(** [response.get('rows', [])] *)
Definition rows_of (r : option (list gsc_row)) : list gsc_row :=
  match r with Some l => l | None => [] end.

(** The message the function returns for a reply that is an exception,
    [None] for a reply that is a response. *)
Definition reply_error (r : api_reply) : option string :=
  match r with
  | Response _ => None
  | RaisesHttpError e => Some (http_error_msg e)
  | RaisesException e => Some (unexpected_error_msg e)
  end.

(** The body whose offset is [i] pages: what the loop sends in its
    iteration number [i], counting from 0. *)
Definition nth_body (start_date_str end_date_str : string) (i : nat)
  : request_body :=
  mk_body start_date_str end_date_str (Z.of_nat i * ROW_LIMIT_PER_REQUEST).

Section Loop.
Variable service : gsc_service.
Variables site_url start_date_str end_date_str : string.

(** The [while True] loop.  [fuel] bounds the number of iterations the
    model follows.  [sent] is the list of bodies sent before this
    iteration. *)
Fixpoint fetch_loop (fuel : nat) (all_rows : list gsc_row)
         (start_row processed_rows_count : Z) (sent : list request_body)
  : fetch_run :=
  match fuel with
  | O => {| returned := None; requests := sent |}
  | S fuel' =>
      let request_body := mk_body start_date_str end_date_str start_row in
      let sent := sent ++ [request_body] in
      match service site_url request_body with
      | Response response_rows =>
          let rows := rows_of response_rows in
          match rows with
          | [] => {| returned := Some (Some all_rows, None);
                     requests := sent |}
          | _ :: _ =>
              let num_rows_in_batch := Z.of_nat (List.length rows) in
              let processed_rows_count :=
                processed_rows_count + num_rows_in_batch in
              let all_rows := all_rows ++ rows in
              if num_rows_in_batch <? ROW_LIMIT_PER_REQUEST
              then {| returned := Some (Some all_rows, None);
                      requests := sent |}
              else fetch_loop fuel' all_rows
                     (start_row + ROW_LIMIT_PER_REQUEST)
                     processed_rows_count sent
          end
      | RaisesHttpError e =>
          {| returned := Some (None, Some (http_error_msg e));
             requests := sent |}
      | RaisesException e =>
          {| returned := Some (None, Some (unexpected_error_msg e));
             requests := sent |}
      end
  end.

Definition fetch_gsc_data (fuel : nat) : fetch_run :=
  fetch_loop fuel [] 0 0 [].
End Loop.

(** The rows a reply carries. *)
Definition reply_rows (r : api_reply) : list gsc_row :=
  match r with
  | Response rows => rows_of rows
  | _ => []
  end.

End Fetch.

(** ** The upsert statement

    The text bound to [upsert_sql], as a syntax tree: the column list of the
    [INSERT], the conflict target, and the assignments of [DO UPDATE SET].
    The ten [%s] placeholders of [VALUES] are filled, in order, from the
    tuple passed to [cur.execute]. *)

Module Sql.

Inductive column :=
| data | site_url | page | query | device | search_type
| clicks | impressions | ctr | position | data_extracao.

Definition column_eqb (a b : column) : bool :=
  match a, b with
  | data, data | site_url, site_url | page, page | query, query
  | device, device | search_type, search_type | clicks, clicks
  | impressions, impressions | ctr, ctr | position, position
  | data_extracao, data_extracao => true
  | _, _ => false
  end.

Inductive set_expr :=
| EXCLUDED (c : column)
| CURRENT_TIMESTAMP.

Record upsert_stmt := {
  insert_into     : string;
  insert_columns  : list column;
  on_conflict     : list column;
  do_update_set   : list (column * set_expr)
}.

Definition upsert_sql : upsert_stmt :=
  {| insert_into := "gsc_desempenho";
     insert_columns := [data; site_url; page; query; device; search_type;
                        clicks; impressions; ctr; position];
     on_conflict := [data; site_url; page; query; device; search_type];
     do_update_set := [(clicks, EXCLUDED clicks);
                       (impressions, EXCLUDED impressions);
                       (ctr, EXCLUDED ctr);
                       (position, EXCLUDED position);
                       (data_extracao, CURRENT_TIMESTAMP)] |}.

End Sql.

(** ** load_data_to_postgres *)

Module Load.

(** The tuple [values] built for one row, field by field. *)
Record upsert_values := {
  v_data        : option string;
  v_site_url    : string;
  v_page        : string;
  v_query       : string;
  v_device      : string;
  v_search_type : string;
  v_clicks      : Z;
  v_impressions : Z;
  v_ctr         : Q;
  v_position    : Q
}.

(** [(keys + [None]*4)[:4]] *)
Definition pad4 (keys : list string) : list (option string) :=
  firstn 4 (map Some keys ++ repeat None 4).

Definition get_or {A} (field : option A) (default : A) : A :=
  match field with Some x => x | None => default end.

(** The body of the [for] loop up to the construction of [values].
    [str_upper] is Python's [str.upper], which follows the Unicode case
    mapping; the loader is stated for any such function. *)
Definition row_values (str_upper : string -> string)
           (site_url_prop : string) (row : gsc_row)
  : upsert_values :=
  let keys := get_or (row_keys row) [] in
  let padded := pad4 keys in
  let data := nth 0 padded None in
  let page := nth 1 padded None in
  let query := nth 2 padded None in
  let device_raw := nth 3 padded None in
  let device :=
    match device_raw with
    | Some d => if PyStr.truthy d then str_upper d else "UNKNOWN"
    | None => "UNKNOWN"
    end in
  let search_type := "WEB" in
  {| v_data := data;
     v_site_url := site_url_prop;
     v_page := PyStr.or_default page "N/A";
     v_query := PyStr.or_default query "N/A";
     v_device := device;
     v_search_type := search_type;
     v_clicks := get_or (row_clicks row) 0;
     v_impressions := get_or (row_impressions row) 0;
     v_ctr := get_or (row_ctr row) (0 # 1);
     v_position := get_or (row_position row) (0 # 1) |}.

(** *** The store as the loader sees it

    Each psycopg2 call made inside the [try] block either completes or
    raises, and so does the [conn.rollback()] of the [except] clause (on a
    connection that was dropped it raises).  [pg_execute] and [pg_commit]
    are given the tuples executed before on the same cursor, so a reply may
    depend on the whole transaction.  [cur.close()] and [conn.close()]
    complete: they only mark the cursor and the connection closed. *)
Inductive call_reply := Completes | Raises (e : string).
Inductive execute_reply := StatusMessage (s : string) | ExecuteRaises (e : string).

Record pg_env := {
  pg_connect : string -> call_reply;
  pg_cursor  : call_reply;
  pg_execute : list upsert_values -> upsert_values -> execute_reply;
  pg_commit  : list upsert_values -> call_reply;
  pg_rollback : call_reply
}.

(** The calls made, with whether each completed.  [Rollback] records that
    [conn.rollback()] was called, whether it completed or raised. *)
Inductive pg_event :=
| Connect (dsn : string) (ok : bool)
| Cursor (ok : bool)
| Execute (stmt : Sql.upsert_stmt) (values : upsert_values) (ok : bool)
| Commit (ok : bool)
| Rollback
| CursorClose
| ConnClose.

(** What the caller observes: the returned triple, or an exception that
    leaves the function. *)
Inductive outcome :=
| Returned (inserted_count updated_count : Z) (msg : string)
| Escapes (exn : string).

Record load_run := {
  result : outcome;
  trace  : list pg_event
}.

(** The local variables at the point where the [try] block is left, and
    the message of the exception that left it, if any. *)
Record locals := {
  conn           : bool;   (* [conn] is a connection, not [None] *)
  cur            : bool;   (* [cur] has been assigned *)
  inserted_count : Z;
  updated_count  : Z;
  calls          : list pg_event;
  raised         : option string
}.

(** The two tests on [cur.statusmessage]. *)
Definition count_status (s : string) (counts : Z * Z) : Z * Z :=
  let '(inserted_count, updated_count) := counts in
  if String.eqb s "INSERT 0 1" then (inserted_count + 1, updated_count)
  else if PyStr.contains "UPDATE 1" s then (inserted_count, updated_count + 1)
  else (inserted_count, updated_count).

Definition success_msg (inserted_count updated_count : Z) : string :=
  ("Carregamento concluído! Inseridas: " ++ PyStr.of_int inserted_count
     ++ ", Atualizadas: " ++ PyStr.of_int updated_count)%string.
Definition error_msg (e : string) : string := ("❌ ERRO PostgreSQL: " ++ e)%string.
Definition no_data_msg : string := "Nenhum dado para carregar.".
Definition not_configured : string := "DATABASE_URL não está configurada.".
Definition cur_unbound : string := "UnboundLocalError: cur".

(** What is pending when the [finally] clause starts: a value to return, or
    the exception raised by [conn.rollback()] in the [except] clause. *)
Inductive pending :=
| ToReturn (inserted_count updated_count : Z) (msg : string)
| ToRaise (exn : string).

(** What the caller observes when nothing replaces the pending outcome. *)
Definition settle (p : pending) : outcome :=
  match p with
  | ToReturn i u msg => Returned i u msg
  | ToRaise exn => Escapes exn
  end.

Section WithStore.
Variable str_upper : string -> string.
Variable env : pg_env.
Variable site_url_prop : string.

(** The [for row in data_rows] loop; [executed] holds the tuples already
    executed.  An exception from [execute] leaves the loop at once. *)
Fixpoint for_rows (data_rows : list gsc_row) (executed : list upsert_values)
         (counts : Z * Z) (calls : list pg_event)
  : Z * Z * list upsert_values * list pg_event * option string :=
  match data_rows with
  | [] => (counts, executed, calls, None)
  | row :: rest =>
      let values := row_values str_upper site_url_prop row in
      match pg_execute env executed values with
      | ExecuteRaises e =>
          (counts, executed,
           calls ++ [Execute Sql.upsert_sql values false], Some e)
      | StatusMessage s =>
          for_rows rest (executed ++ [values]) (count_status s counts)
                   (calls ++ [Execute Sql.upsert_sql values true])
      end
  end.

(** The [try] block. *)
Definition try_block (db_url : option string) (data_rows : list gsc_row)
  : locals :=
  match db_url with
  | None =>
      {| conn := false; cur := false; inserted_count := 0;
         updated_count := 0; calls := []; raised := Some not_configured |}
  | Some dsn =>
      if negb (PyStr.truthy dsn) then
        {| conn := false; cur := false; inserted_count := 0;
           updated_count := 0; calls := [];
           raised := Some not_configured |}
      else
      match pg_connect env dsn with
      | Raises e =>
          {| conn := false; cur := false; inserted_count := 0;
             updated_count := 0; calls := [Connect dsn false];
             raised := Some e |}
      | Completes =>
          match pg_cursor env with
          | Raises e =>
              {| conn := true; cur := false; inserted_count := 0;
                 updated_count := 0;
                 calls := [Connect dsn true; Cursor false];
                 raised := Some e |}
          | Completes =>
              let '(counts, executed, calls, exn) :=
                for_rows data_rows [] (0, 0)
                         [Connect dsn true; Cursor true] in
              match exn with
              | Some e =>
                  {| conn := true; cur := true;
                     inserted_count := fst counts;
                     updated_count := snd counts;
                     calls := calls; raised := Some e |}
              | None =>
                  match pg_commit env executed with
                  | Raises e =>
                      {| conn := true; cur := true;
                         inserted_count := fst counts;
                         updated_count := snd counts;
                         calls := calls ++ [Commit false];
                         raised := Some e |}
                  | Completes =>
                      {| conn := true; cur := true;
                         inserted_count := fst counts;
                         updated_count := snd counts;
                         calls := calls ++ [Commit true];
                         raised := None |}
                  end
              end
          end
      end
  end.

(** [except Exception as e]: what is pending afterwards and the calls made
    so far.  Without an exception the [return] of the [try] block is
    pending.  With one, [conn.rollback()] is called if there is a
    connection; if it raises, its exception leaves the clause before the
    [return] is reached. *)
Definition except_clause (l : locals) : pending * list pg_event :=
  match raised l with
  | None =>
      (ToReturn (inserted_count l) (updated_count l)
                (success_msg (inserted_count l) (updated_count l)),
       calls l)
  | Some e =>
      if conn l then
        match pg_rollback env with
        | Completes =>
            (ToReturn (inserted_count l) (updated_count l) (error_msg e),
             calls l ++ [Rollback])
        | Raises e' => (ToRaise e', calls l ++ [Rollback])
        end
      else
        (ToReturn (inserted_count l) (updated_count l) (error_msg e), calls l)
  end.

(** [finally]: runs with a return value or an exception pending.
    [cur.close()] is evaluated first; when [cur] was never assigned the
    name lookup raises, what was pending is dropped and [conn.close()] is
    not reached. *)
Definition finally_clause (l : locals)
           (p : pending * list pg_event) : load_run :=
  let '(what, calls) := p in
  if conn l then
    if cur l then
      {| result := settle what;
         trace := calls ++ [CursorClose; ConnClose] |}
    else {| result := Escapes cur_unbound; trace := calls |}
  else {| result := settle what; trace := calls |}.

Definition load_data_to_postgres (db_url : option string)
           (data_rows : list gsc_row) : load_run :=
  match data_rows with
  | [] => {| result := Returned 0 0 no_data_msg; trace := [] |}
  | _ :: _ =>
      let l := try_block db_url data_rows in
      finally_clause l (except_clause l)
  end.
End WithStore.

(** *** Notions used to describe a run *)

(** The status messages the store gives when [data_rows] are executed
    after [executed]; [None] if one of the executions raises. *)
Fixpoint status_messages (str_upper : string -> string) (env : pg_env)
         (site_url_prop : string)
         (data_rows : list gsc_row) (executed : list upsert_values)
  : option (list string) :=
  match data_rows with
  | [] => Some []
  | row :: rest =>
      let values := row_values str_upper site_url_prop row in
      match pg_execute env executed values with
      | ExecuteRaises _ => None
      | StatusMessage s =>
          option_map (cons s)
            (status_messages str_upper env site_url_prop rest
                             (executed ++ [values]))
      end
  end.

(** The counters after a list of status messages, starting from [counts]. *)
Definition tally (ss : list string) (counts : Z * Z) : Z * Z :=
  fold_left (fun c s => count_status s c) ss counts.

(** The [Execute] events of rows whose execution completed. *)
Definition executed_ok (str_upper : string -> string)
           (site_url_prop : string) (data_rows : list gsc_row)
  : list pg_event :=
  map (fun row => Execute Sql.upsert_sql
                          (row_values str_upper site_url_prop row) true)
      data_rows.

(** What the caller observes after [conn.rollback()] was called for an
    exception [e] raised in the [try] block: the counters with the error
    message if the rollback completed, the rollback's own exception if it
    raised. *)
Definition after_rollback (env : pg_env) (inserted_count updated_count : Z)
           (e : string) : outcome :=
  match pg_rollback env with
  | Completes => Returned inserted_count updated_count (error_msg e)
  | Raises e' => Escapes e'
  end.

(** A connection was handed out during the run. *)
Definition acquired (t : list pg_event) : Prop :=
  exists dsn, In (Connect dsn true) t.

(** The tuples handed to [cur.execute], in call order. *)
Fixpoint executed_values (t : list pg_event) : list upsert_values :=
  match t with
  | [] => []
  | Execute _ values _ :: t' => values :: executed_values t'
  | _ :: t' => executed_values t'
  end.

End Load.

(** ** What the upsert statement does to the table

    PostgreSQL's reading of an [INSERT ... ON CONFLICT (...) DO UPDATE SET]
    statement, for one proposed row: a column named in the column list takes
    its parameter, any other column takes the default the table declares for
    it; if a stored row agrees with the proposed one on every column of the
    conflict target, the [SET] assignments are applied to that row,
    otherwise the proposed row is stored.  The table definition is not part
    of the repository, so the declared defaults are an argument. *)

Module Pg.
Import Sql.

Inductive sqlval :=
| NULL
| Text (s : string)
| Integer (z : Z)
| Numeric (q : Q)
| Timestamp (t : Z).

(** Equality as a unique index sees it: [NULL] equals nothing. *)
Definition sqlval_eqb (a b : sqlval) : bool :=
  match a, b with
  | Text s, Text s' => String.eqb s s'
  | Integer z, Integer z' => Z.eqb z z'
  | Numeric q, Numeric q' => Qeq_bool q q'
  | Timestamp t, Timestamp t' => Z.eqb t t'
  | _, _ => false
  end.

Definition tuple := column -> sqlval.

(** What a column's declaration says about a missing value. *)
Inductive column_default := NO_DEFAULT | DEFAULT_CURRENT_TIMESTAMP.
Definition table_def := column -> column_default.

Definition default_value (d : column_default) (now : Z) : sqlval :=
  match d with
  | NO_DEFAULT => NULL
  | DEFAULT_CURRENT_TIMESTAMP => Timestamp now
  end.

(** The parameters psycopg2 sends for a [values] tuple, in order. *)
Definition params (v : Load.upsert_values) : list sqlval :=
  [ match Load.v_data v with Some d => Text d | None => NULL end;
    Text (Load.v_site_url v); Text (Load.v_page v); Text (Load.v_query v);
    Text (Load.v_device v); Text (Load.v_search_type v);
    Integer (Load.v_clicks v); Integer (Load.v_impressions v);
    Numeric (Load.v_ctr v); Numeric (Load.v_position v) ].

Fixpoint position_of (c : column) (cols : list column) : option nat :=
  match cols with
  | [] => None
  | c' :: rest =>
      if column_eqb c c' then Some O
      else option_map S (position_of c rest)
  end.

Fixpoint assignment_of (c : column) (sets : list (column * set_expr))
  : option set_expr :=
  match sets with
  | [] => None
  | (c', e) :: rest =>
      if column_eqb c c' then Some e else assignment_of c rest
  end.

Section Exec.
Variable def : table_def.
Variable now : Z.
Variable stmt : upsert_stmt.
Variable ps : list sqlval.

(** The row proposed for insertion. *)
Definition proposed : tuple := fun c =>
  match position_of c (insert_columns stmt) with
  | Some i => nth i ps NULL
  | None => default_value (def c) now
  end.

Definition conflicts (t : tuple) : bool :=
  forallb (fun c => sqlval_eqb (t c) (proposed c)) (on_conflict stmt).

(** The stored row after [DO UPDATE SET]. *)
Definition updated (t : tuple) : tuple := fun c =>
  match assignment_of c (do_update_set stmt) with
  | Some (EXCLUDED c') => proposed c'
  | Some CURRENT_TIMESTAMP => Timestamp now
  | None => t c
  end.

(** The new table, the row that was written, and whether the conflict
    path was taken. *)
Fixpoint exec_upsert (tbl : list tuple) : list tuple * tuple * bool :=
  match tbl with
  | [] => ([proposed], proposed, false)
  | t :: rest =>
      if conflicts t then (updated t :: rest, updated t, true)
      else let '(rest', w, b) := exec_upsert rest in (t :: rest', w, b)
  end.
End Exec.

(** Two rows agree on every column of the statement's conflict target, as
    the unique index compares them. *)
Definition same_key (stmt : upsert_stmt) (t t' : tuple) : bool :=
  forallb (fun c => sqlval_eqb (t c) (t' c)) (on_conflict stmt).

(** Two rows hold the same value, [NULL] included, in every column of the
    statement's conflict target. *)
Definition agree_on_key (stmt : upsert_stmt) (t t' : tuple) : Prop :=
  forall c, In c (on_conflict stmt) -> t c = t' c.

(** No two rows of the table agree on the key. *)
Fixpoint distinct_keys (stmt : upsert_stmt) (tbl : list tuple) : Prop :=
  match tbl with
  | [] => True
  | t :: rest =>
      Forall (fun t' => ~ agree_on_key stmt t t') rest
      /\ distinct_keys stmt rest
  end.

(** Modelled from the spec: the definition of the table [gsc_desempenho] is
    not in the repository.  The spec (store schema) gives the load
    timestamp as set to the current time on every upsert; on the insert
    path, where the statement does not name the column, that is the
    column's declared default.  No other column is given a default. *)
Definition gsc_desempenho : table_def :=
  fun c => match c with
           | data_extracao => DEFAULT_CURRENT_TIMESTAMP
           | _ => NO_DEFAULT
           end.

End Pg.

(** ** trigger_gsc_sync *)

Module Trigger.
Import Fetch Load.

Definition GSC_SCOPES : list string :=
  ["https://www.googleapis.com/auth/webmasters.readonly"].

(** [request.args]: the query string as key/value pairs, in order. *)
Definition query_args := list (string * string).

(** [request.args.get(key, default)]: the first value given for [key]. *)
Fixpoint args_get (a : query_args) (key default : string) : string :=
  match a with
  | [] => default
  | (k, v) :: rest => if String.eqb k key then v else args_get rest key default
  end.

Fixpoint args_has (a : query_args) (key : string) : bool :=
  match a with
  | [] => false
  | (k, _) :: rest => String.eqb k key || args_has rest key
  end.

(** *** authenticate_gsc

    [from_service_account_file] followed by [build]: a client handle, or
    [FileNotFoundError], or another exception. *)
Inductive creds_reply :=
| Built (service : gsc_service)
| RaisesFileNotFoundError
| RaisesOther (e : string).

Definition authenticate_gsc (google : string -> list string -> creds_reply)
           (key_path : string) (scopes : list string)
  : option gsc_service * option string :=
  match google key_path scopes with
  | Built service => (Some service, None)
  | RaisesFileNotFoundError =>
      (None, Some ("❌ ERRO: Arquivo de chave não encontrado em: " ++ key_path)%string)
  | RaisesOther e =>
      (None, Some ("❌ ERRO na autenticação GSC: " ++ e)%string)
  end.

(** *** Dates

    A [datetime.date] is its proleptic Gregorian ordinal, between 1 and
    [MAXORDINAL].  [date - timedelta(days=n)] subtracts ordinals and raises
    [OverflowError] when [n] is not a valid [timedelta] or the result is
    not a date. *)
Definition MAXORDINAL : Z := 3652059.
Definition MAX_DELTA_DAYS : Z := 999999999.

Definition date_minus_days (d days : Z) : option Z :=
  if Z.abs days <=? MAX_DELTA_DAYS then
    let o := d - days in
    if (0 <? o) && (o <=? MAXORDINAL) then Some o else None
  else None.

(** *** The response *)
Inductive json := JStr (s : string) | JInt (n : Z).

Inductive reply :=
| Jsonify (body : list (string * json)) (status : Z)
| Unhandled (exn : string).

(** [response = None]: the fetch loop is still running. *)
Record handler_run := {
  response    : option reply;
  gsc_sent    : list request_body;
  store_calls : list pg_event
}.

Record world := {
  DATABASE_URL : option string;
  today        : Z;
  google       : string -> list string -> creds_reply;
  store        : pg_env
}.

Definition fmt (o : option string) : string :=
  match o with Some s => s | None => "None" end.

Section Handler.
(** [int(s)] on a [str]: the integer, or [None] for [ValueError]. *)
Variable py_int : string -> option Z.
(** [d.strftime('%Y-%m-%d')] *)
Variable strftime_ymd : Z -> string.
(** [s.upper()] *)
Variable str_upper : string -> string.

(** The [try: int(...) except ValueError: 2] block. *)
Definition days_param (a : query_args) : Z :=
  match py_int (args_get a "days" "2") with
  | Some n => n
  | None => 2
  end.

Definition trigger_gsc_sync (w : world) (fuel : nat) (a : query_args)
  : handler_run :=
  if negb (PyStr.truthy_opt (DATABASE_URL w)) then
    {| response := Some (Jsonify [("status", JStr "error");
                                  ("message", JStr "DATABASE_URL not configured")] 500);
       gsc_sent := []; store_calls := [] |}
  else
  let days := days_param a in
  match authenticate_gsc (google w) GCP_KEY_PATH GSC_SCOPES with
  | (None, auth_error) =>
      {| response := Some (Jsonify [("status", JStr "error");
                                    ("message", JStr ("GSC Authentication Failed: " ++ fmt auth_error)%string)] 500);
         gsc_sent := []; store_calls := [] |}
  | (Some gsc_service, _) =>
      match date_minus_days (today w) days with
      | None =>
          {| response := Some (Unhandled "OverflowError");
             gsc_sent := []; store_calls := [] |}
      | Some target_date =>
          let start_date_str := strftime_ymd target_date in
          let end_date_str := strftime_ymd target_date in
          let f := fetch_gsc_data gsc_service GSC_SITE_URL
                                  start_date_str end_date_str fuel in
          match returned f with
          | None => {| response := None;
                       gsc_sent := requests f; store_calls := [] |}
          | Some (gsc_rows, fetch_error) =>
              match gsc_rows with
              | None =>
                  {| response := Some (Jsonify [("status", JStr "error");
                                                ("message", JStr ("GSC Fetch Failed: " ++ fmt fetch_error)%string)] 500);
                     gsc_sent := requests f; store_calls := [] |}
              | Some gsc_rows =>
                  let l := load_data_to_postgres str_upper (store w)
                                                 GSC_SITE_URL
                                                 (DATABASE_URL w) gsc_rows in
                  match result l with
                  | Escapes exn =>
                      {| response := Some (Unhandled exn);
                         gsc_sent := requests f; store_calls := trace l |}
                  | Returned inserted updated load_message =>
                      if PyStr.contains "ERRO" load_message then
                        {| response := Some (Jsonify
                             [("status", JStr "error");
                              ("message", JStr ("PostgreSQL Load Failed: " ++ load_message)%string);
                              ("inserted", JInt inserted);
                              ("updated", JInt updated)] 500);
                           gsc_sent := requests f; store_calls := trace l |}
                      else
                        {| response := Some (Jsonify
                             [("status", JStr "success");
                              ("message", JStr load_message);
                              ("date_processed", JStr start_date_str);
                              ("rows_found", JInt (Z.of_nat (List.length gsc_rows)));
                              ("inserted", JInt inserted);
                              ("updated", JInt updated)] 200);
                           gsc_sent := requests f; store_calls := trace l |}
                  end
              end
          end
      end
  end.
End Handler.

End Trigger.

(** ** Concrete environments

    Stand-ins for the outside world, used to run the model: a Search Console
    client that serves a fixed list of replies, a store that answers from a
    fixed list, an [int()] for ASCII text and an ISO date formatter. *)

Module Instances.
Import Fetch Load Trigger.

(** A client that answers the request for offset [i * ROW_LIMIT_PER_REQUEST]
    with the [i]-th reply of a script, and with an empty response after
    the script ends. *)
Definition scripted (replies : list api_reply) : gsc_service :=
  fun _ body =>
    nth (Z.to_nat (startRow body / ROW_LIMIT_PER_REQUEST)) replies
        (Response None).

Definition sample_row : gsc_row :=
  {| row_keys := Some ["2026-11-02"; "https://www.feirasderua.com.br/feiras";
                       "feira de rua"; "mobile"];
     row_clicks := Some 3; row_impressions := Some 40;
     row_ctr := Some (3 # 40); row_position := Some (7 # 2) |}.

Definition other_row : gsc_row :=
  {| row_keys := Some ["2026-11-02"; "https://www.feirasderua.com.br/";
                       "feiras"; "DESKTOP"];
     row_clicks := Some 1; row_impressions := Some 9;
     row_ctr := Some (1 # 9); row_position := Some (12 # 1) |}.

(** A row whose [keys] entry is missing. *)
Definition bare_row : gsc_row :=
  {| row_keys := None; row_clicks := None; row_impressions := None;
     row_ctr := None; row_position := None |}.

Definition full_page : list gsc_row :=
  repeat sample_row (Z.to_nat ROW_LIMIT_PER_REQUEST).

Definition short_page : list gsc_row := repeat other_row 7.

(** [s.upper()] for text whose letters are ASCII: the bytes [a]..[z] are
    mapped, all others are left. *)
Definition ascii_upper_char (c : ascii) : ascii :=
  let n := nat_of_ascii c in
  if ((97 <=? n) && (n <=? 122))%nat then ascii_of_nat (n - 32) else c.

Fixpoint ascii_upper (s : string) : string :=
  match s with
  | EmptyString => EmptyString
  | String c s' => String (ascii_upper_char c) (ascii_upper s')
  end.

(** A store whose [i]-th [execute] gives the [i]-th reply of a script, and
    whose [rollback] completes. *)
Definition scripted_store (connect cursor : call_reply)
           (replies : list execute_reply) (commit : call_reply) : pg_env :=
  {| pg_connect := fun _ => connect;
     pg_cursor := cursor;
     pg_execute := fun executed _ =>
                     nth (List.length executed) replies
                         (StatusMessage "INSERT 0 1");
     pg_commit := fun _ => commit;
     pg_rollback := Completes |}.

(** The same store on a connection that is dropped when a call fails:
    [rollback] raises. *)
Definition dropping (env : pg_env) : pg_env :=
  {| pg_connect := pg_connect env;
     pg_cursor := pg_cursor env;
     pg_execute := pg_execute env;
     pg_commit := pg_commit env;
     pg_rollback := Raises "connection already closed" |}.

(** [int(s)] for ASCII text: surrounding whitespace, an optional sign,
    decimal digits with single underscores between them. *)
Definition is_space (c : ascii) : bool :=
  let n := nat_of_ascii c in
  (((9 <=? n) && (n <=? 13)) || ((28 <=? n) && (n <=? 32)))%nat.

Fixpoint lstrip (s : string) : string :=
  match s with
  | String c s' => if is_space c then lstrip s' else s
  | EmptyString => EmptyString
  end.

Fixpoint reverse (s acc : string) : string :=
  match s with
  | EmptyString => acc
  | String c s' => reverse s' (String c acc)
  end.

Definition strip (s : string) : string :=
  reverse (lstrip (reverse (lstrip s) "")) "".

Definition digit (c : ascii) : option Z :=
  let n := nat_of_ascii c in
  if ((48 <=? n) && (n <=? 57))%nat then Some (Z.of_nat (n - 48)) else None.

Fixpoint digits (s : string) (acc : Z) (after_digit : bool) : option Z :=
  match s with
  | EmptyString => if after_digit then Some acc else None
  | String c s' =>
      if Ascii.eqb c "_" then
        if after_digit then digits s' acc false else None
      else match digit c with
           | Some d => digits s' (10 * acc + d) true
           | None => None
           end
  end.

Definition ascii_int (s : string) : option Z :=
  match strip s with
  | String "+" r => digits r 0 false
  | String "-" r => option_map Z.opp (digits r 0 false)
  | r => digits r 0 false
  end.

(** [date.fromordinal(n).isoformat()] *)
Definition days_before_month (m : Z) : Z :=
  nth (Z.to_nat m) [0; 0; 31; 59; 90; 120; 151; 181; 212; 243; 273; 304; 334] 0.
Definition days_in_month (m : Z) : Z :=
  nth (Z.to_nat m) [0; 31; 28; 31; 30; 31; 30; 31; 31; 30; 31; 30; 31] 0.

Definition ord2ymd (ordinal : Z) : Z * Z * Z :=
  let n := ordinal - 1 in
  let n400 := n / 146097 in
  let n := n mod 146097 in
  let n100 := n / 36524 in
  let n := n mod 36524 in
  let n4 := n / 1461 in
  let n := n mod 1461 in
  let n1 := n / 365 in
  let n := n mod 365 in
  let year := n400 * 400 + 1 + n100 * 100 + n4 * 4 + n1 in
  if (n1 =? 4) || (n100 =? 4) then (year - 1, 12, 31)
  else
    let leap := (n1 =? 3) && (negb (n4 =? 24) || (n100 =? 3)) in
    let month := Z.shiftr (n + 50) 5 in
    let preceding :=
      days_before_month month + (if (2 <? month) && leap then 1 else 0) in
    if n <? preceding then
      let month := month - 1 in
      let preceding :=
        preceding
        - (days_in_month month + (if (month =? 2) && leap then 1 else 0)) in
      (year, month, n - preceding + 1)
    else (year, month, n - preceding + 1).

Fixpoint zfill (width : nat) (s : string) : string :=
  match width with
  | O => s
  | S w => if (String.length s <? S w)%nat then zfill w ("0" ++ s)%string
           else s
  end.

Definition isoformat (ordinal : Z) : string :=
  let '(y, m, d) := ord2ymd ordinal in
  (zfill 4 (PyStr.of_int y) ++ "-" ++ zfill 2 (PyStr.of_int m) ++ "-"
     ++ zfill 2 (PyStr.of_int d))%string.

(** Wednesday 4 November 2026, and the day the default request asks for. *)
Definition a_day : Z := 739924.
Definition day : string := "2026-11-02".
Definition dsn : string := "postgres://gsc@db/analytics".

(** Three full pages and a last page of seven rows. *)
Definition four_pages : gsc_service :=
  scripted [Response (Some full_page); Response (Some full_page);
            Response (Some full_page); Response (Some short_page)].

Definition four_rows : list gsc_row :=
  [sample_row; other_row; bare_row; sample_row].

(** Stores on which [connect], the third [execute], and [commit] raise. *)
Definition refusing : pg_env :=
  scripted_store (Raises "connection refused") Completes [] Completes.
Definition failing_third : pg_env :=
  scripted_store Completes Completes
                 [StatusMessage "INSERT 0 1"; StatusMessage "UPDATE 1";
                  ExecuteRaises "null value in column data"] Completes.
Definition failing_commit : pg_env :=
  scripted_store Completes Completes
                 [StatusMessage "INSERT 0 1"; StatusMessage "UPDATE 1";
                  StatusMessage "INSERT 0 0"; StatusMessage "INSERT 0 1"]
                 (Raises "server closed the connection").

Definition a_world (service : gsc_service) (pg : pg_env) : world :=
  {| DATABASE_URL := Some dsn;
     today := a_day;
     google := fun _ _ => Built service;
     store := pg |}.

(** A client that answers every request with a full page. *)
Definition endless : gsc_service := fun _ _ => Response (Some full_page).

(** A client whose second request raises. *)
Definition failing_second : gsc_service :=
  scripted [Response (Some full_page);
            RaisesHttpError "503 Service Unavailable";
            Response (Some short_page)].

Definition obliging : pg_env :=
  scripted_store Completes Completes
                 [StatusMessage "INSERT 0 1"; StatusMessage "UPDATE 1";
                  StatusMessage "INSERT 0 0"; StatusMessage "INSERT 0 1"]
                 Completes.

(** A table definition whose timestamp column defaults to the current time. *)
Definition stamped : Pg.table_def := Pg.gsc_desempenho.

(** A row that differs from [sample_row] in its metrics only. *)
Definition sample_row_later : gsc_row :=
  {| row_keys := row_keys sample_row;
     row_clicks := Some 5; row_impressions := Some 50;
     row_ctr := Some (1 # 10); row_position := Some (3 # 1) |}.

(** Worlds for whole requests: a property with seven rows, a property
    without data, a client whose second request raises, and a host without
    the key file. *)
Definition short_world : world :=
  a_world (scripted [Response (Some short_page)]) obliging.
Definition empty_world : world :=
  a_world (scripted [Response None]) obliging.
Definition failing_world : world := a_world failing_second obliging.
Definition keyless_world : world :=
  {| DATABASE_URL := Some dsn;
     today := a_day;
     google := fun _ _ => RaisesFileNotFoundError;
     store := obliging |}.

Definition short_world_body : list (string * json) :=
  [("status", JStr "success");
   ("message", JStr "Carregamento concluído! Inseridas: 5, Atualizadas: 1");
   ("date_processed", JStr "2026-11-02");
   ("rows_found", JInt 7);
   ("inserted", JInt 5); ("updated", JInt 1)].

End Instances.

(** * Properties *)

Example isoformat_examples :
  Instances.isoformat 730120 = "2000-01-01" /\
  Instances.isoformat 719163 = "1970-01-01" /\
  Instances.isoformat 738945 = "2024-02-29" /\
  Instances.isoformat 739251 = "2024-12-31" /\
  Instances.isoformat Instances.a_day = "2026-11-04".
Proof. repeat split; vm_compute; reflexivity. Qed.

Example ascii_int_examples :
  Instances.ascii_int "2" = Some 2 /\
  Instances.ascii_int " -17 " = Some (-17) /\
  Instances.ascii_int "1_000" = Some 1000 /\
  Instances.ascii_int "1__0" = None /\
  Instances.ascii_int "" = None /\
  Instances.ascii_int "2.5" = None /\
  Instances.ascii_int "abc" = None.
Proof. repeat split; vm_compute; reflexivity. Qed.

(** ** Pagination *)

Section FetchProperties.
Import Fetch.
Variable service : gsc_service.
Variables site_url start_date_str end_date_str : string.

Local Abbreviation body_at := (nth_body start_date_str end_date_str).
Local Abbreviation loop := (fetch_loop service site_url start_date_str end_date_str).

Lemma ROW_LIMIT_pos : 0 < ROW_LIMIT_PER_REQUEST.
Proof. reflexivity. Qed.

Lemma next_offset (k : nat) :
  Z.of_nat k * ROW_LIMIT_PER_REQUEST + ROW_LIMIT_PER_REQUEST
  = Z.of_nat (S k) * ROW_LIMIT_PER_REQUEST.
Proof. lia. Qed.

(** One iteration on a page that is not short: the page is appended and
    the loop goes on at the next offset. *)
Lemma loop_full_page fuel acc k pc sent p :
  service site_url (body_at k) = Response (Some p) ->
  ROW_LIMIT_PER_REQUEST <= Z.of_nat (List.length p) ->
  loop (S fuel) acc (Z.of_nat k * ROW_LIMIT_PER_REQUEST) pc sent
  = loop fuel (acc ++ p) (Z.of_nat (S k) * ROW_LIMIT_PER_REQUEST)
         (pc + Z.of_nat (List.length p)) (sent ++ [body_at k]).
Proof.
  intros Hs Hlen. unfold nth_body in *. cbn [fetch_loop].
  rewrite Hs. cbn [rows_of].
  destruct p as [|r p'].
  - cbn in Hlen. pose proof ROW_LIMIT_pos. lia.
  - destruct (Z.ltb_spec (Z.of_nat (List.length (r :: p'))) ROW_LIMIT_PER_REQUEST)
      as [Hlt|_]; [lia|].
    rewrite next_offset. reflexivity.
Qed.

(** One iteration on a short or empty page: the loop is left. *)
Lemma loop_short_page fuel acc k pc sent last :
  service site_url (body_at k) = Response last ->
  Z.of_nat (List.length (rows_of last)) < ROW_LIMIT_PER_REQUEST ->
  loop (S fuel) acc (Z.of_nat k * ROW_LIMIT_PER_REQUEST) pc sent
  = {| returned := Some (Some (acc ++ rows_of last), None);
       requests := sent ++ [body_at k] |}.
Proof.
  intros Hs Hlen. unfold nth_body in *. cbn [fetch_loop].
  rewrite Hs.
  destruct (rows_of last) as [|r p'] eqn:E.
  - rewrite app_nil_r. reflexivity.
  - destruct (Z.ltb_spec (Z.of_nat (List.length (r :: p'))) ROW_LIMIT_PER_REQUEST)
      as [_|Hge]; [reflexivity|lia].
Qed.

(** One iteration on a request that raises. *)
Lemma loop_error fuel acc k pc sent msg :
  reply_error (service site_url (body_at k)) = Some msg ->
  loop (S fuel) acc (Z.of_nat k * ROW_LIMIT_PER_REQUEST) pc sent
  = {| returned := Some (None, Some msg); requests := sent ++ [body_at k] |}.
Proof.
  intros He. unfold nth_body in *. cbn [fetch_loop].
  destruct (service site_url _); cbn in He; try discriminate;
    injection He as <-; reflexivity.
Qed.

(** The loop over [pages] served from offset index [k], followed by a
    reply [stop] that ends it. *)
Lemma loop_pages pages :
  forall fuel acc k pc sent,
    (forall i, (i < List.length pages)%nat ->
               service site_url (body_at (k + i))
               = Response (Some (nth i pages []))) ->
    Forall (fun p => ROW_LIMIT_PER_REQUEST <= Z.of_nat (List.length p)) pages ->
    (List.length pages < fuel)%nat ->
    exists pc',
      loop fuel acc (Z.of_nat k * ROW_LIMIT_PER_REQUEST) pc sent
      = loop (fuel - List.length pages) (acc ++ List.concat pages)
             (Z.of_nat (k + List.length pages) * ROW_LIMIT_PER_REQUEST) pc'
             (sent ++ map body_at (seq k (List.length pages))).
Proof.
  induction pages as [|p pages IH]; intros fuel acc k pc sent Hserve Hfull Hfuel.
  - exists pc. cbn. rewrite !app_nil_r, Nat.sub_0_r, Nat.add_0_r. reflexivity.
  - destruct fuel as [|fuel]; [cbn in Hfuel; lia|].
    inversion Hfull as [|? ? Hp Hrest]; subst.
    rewrite (loop_full_page fuel acc k pc sent p).
    + destruct (IH fuel (acc ++ p) (S k) (pc + Z.of_nat (List.length p))
                   (sent ++ [body_at k])) as [pc' Heq].
      * intros i Hi. replace (S k + i)%nat with (k + S i)%nat by lia.
        apply (Hserve (S i)). cbn. lia.
      * exact Hrest.
      * cbn in Hfuel. lia.
      * exists pc'. rewrite Heq. cbn [List.length List.concat seq map].
        rewrite <- !app_assoc. cbn [app].
        replace (S k + List.length pages)%nat
          with (k + S (List.length pages))%nat by lia.
        reflexivity.
    + specialize (Hserve O). rewrite Nat.add_0_r in Hserve.
      apply Hserve. cbn. lia.
    + exact Hp.
Qed.

Lemma concat_length_full (pages : list (list gsc_row)) :
  Forall (fun p => Z.of_nat (List.length p) = ROW_LIMIT_PER_REQUEST) pages ->
  Z.of_nat (List.length (List.concat pages))
  = Z.of_nat (List.length pages) * ROW_LIMIT_PER_REQUEST.
Proof.
  induction 1 as [|p pages Hp _ IH]; [reflexivity|].
  cbn [List.concat List.length]. rewrite length_app. lia.
Qed.

(** Every request that was answered before the last one was answered with
    a response, not with an exception. *)
Lemma loop_error_is_last :
  forall fuel acc start_row pc sent b msg,
    (forall b', In b' sent -> reply_error (service site_url b') = None) ->
    In b (requests (loop fuel acc start_row pc sent)) ->
    reply_error (service site_url b) = Some msg ->
    returned (loop fuel acc start_row pc sent) = Some (None, Some msg)
    /\ exists before,
         requests (loop fuel acc start_row pc sent) = before ++ [b].
Proof.
  induction fuel as [|fuel IH]; intros acc start_row pc sent b msg Hsent Hin Herr.
  - cbn in Hin. apply Hsent in Hin. congruence.
  - cbn [fetch_loop] in *.
    set (rb := mk_body start_date_str end_date_str start_row) in *.
    assert (Hcase : forall r,
               In b (sent ++ [rb]) ->
               reply_error (service site_url rb) = Some r ->
               r = msg /\ b = rb).
    { intros r Hb Hr. apply in_app_or in Hb as [Hb|[<-|[]]].
      - apply Hsent in Hb. congruence.
      - split; congruence. }
    destruct (service site_url rb) as [resp|e|e] eqn:Hreply.
    + assert (Hsent' : forall b', In b' (sent ++ [rb]) ->
                                  reply_error (service site_url b') = None).
      { intros b' Hb'. apply in_app_or in Hb' as [Hb'|[<-|[]]].
        - auto.
        - rewrite Hreply. reflexivity. }
      destruct (rows_of resp) as [|r0 rows].
      * cbn in Hin. apply Hsent' in Hin. congruence.
      * destruct (_ <? _).
        -- cbn in Hin. apply Hsent' in Hin. congruence.
        -- apply IH; assumption.
    + cbn in Hin |- *. destruct (Hcase _ Hin eq_refl) as [<- ->].
      split; [reflexivity|]. exists sent. reflexivity.
    + cbn in Hin |- *. destruct (Hcase _ Hin eq_refl) as [<- ->].
      split; [reflexivity|]. exists sent. reflexivity.
Qed.

(** C1.  When the service answers the first [n] requests with pages that
    are not short and the next one with a short or empty page, the
    function returns, for every bound above [n] on the iterations, the
    pages concatenated in request order followed by the short page; it
    has sent exactly [n + 1] requests, at offsets [0], [P], ..., [n * P];
    and when the [n] pages hold exactly [P] rows each the result holds
    [n * P + k] rows, [k] the size of the short page.  With [n = 0] the
    first page is short or empty and one request is sent. *)
Theorem fetch_pagination (pages : list (list gsc_row))
        (stop : option (list gsc_row)) (fuel : nat) :
  (forall i, (i < List.length pages)%nat ->
             service site_url (body_at i) = Response (Some (nth i pages []))) ->
  Forall (fun p => ROW_LIMIT_PER_REQUEST <= Z.of_nat (List.length p)) pages ->
  service site_url (body_at (List.length pages)) = Response stop ->
  Z.of_nat (List.length (rows_of stop)) < ROW_LIMIT_PER_REQUEST ->
  (List.length pages < fuel)%nat ->
  fetch_gsc_data service site_url start_date_str end_date_str fuel
  = {| returned := Some (Some (List.concat pages ++ rows_of stop), None);
       requests := map body_at (seq 0 (S (List.length pages))) |}
  /\ (Forall (fun p => Z.of_nat (List.length p) = ROW_LIMIT_PER_REQUEST) pages ->
      Z.of_nat (List.length (List.concat pages ++ rows_of stop))
      = Z.of_nat (List.length pages) * ROW_LIMIT_PER_REQUEST
        + Z.of_nat (List.length (rows_of stop))).
Proof.
  intros Hserve Hfull Hstop Hshort Hfuel. split.
  - unfold fetch_gsc_data.
    destruct (loop_pages pages fuel [] O 0 [] Hserve Hfull Hfuel) as [pc' Heq].
    change 0 with (Z.of_nat 0 * ROW_LIMIT_PER_REQUEST) at 1.
    rewrite Heq. cbn [app Nat.add].
    destruct (fuel - List.length pages)%nat as [|rest] eqn:Hrest; [lia|].
    rewrite (loop_short_page rest _ _ _ _ stop Hstop Hshort).
    rewrite seq_S, map_app. reflexivity.
  - intros Hexact. rewrite length_app, Nat2Z.inj_add.
    rewrite (concat_length_full pages Hexact). reflexivity.
Qed.

(** C3.  If any request of a run was answered with an exception, the run
    has returned [(None, error_msg)] for that exception: no rows, whatever
    the earlier pages held; the failed request is the last one sent. *)
Theorem fetch_error_returns_no_rows (fuel : nat) (b : request_body)
        (msg : string) :
  In b (requests (fetch_gsc_data service site_url start_date_str
                                 end_date_str fuel)) ->
  reply_error (service site_url b) = Some msg ->
  returned (fetch_gsc_data service site_url start_date_str end_date_str fuel)
  = Some (None, Some msg)
  /\ exists before,
       requests (fetch_gsc_data service site_url start_date_str
                                end_date_str fuel) = before ++ [b].
Proof.
  intros Hin Herr. unfold fetch_gsc_data.
  apply (loop_error_is_last fuel [] 0 0 [] b msg); try assumption.
  intros b' [].
Qed.

(** An exception on the request after [n] full pages: the run ends there
    with a failure, for every bound above [n]. *)
Lemma fetch_error_after_pages (pages : list (list gsc_row)) (msg : string)
      (fuel : nat) :
  (forall i, (i < List.length pages)%nat ->
             service site_url (body_at i) = Response (Some (nth i pages []))) ->
  Forall (fun p => ROW_LIMIT_PER_REQUEST <= Z.of_nat (List.length p)) pages ->
  reply_error (service site_url (body_at (List.length pages))) = Some msg ->
  (List.length pages < fuel)%nat ->
  fetch_gsc_data service site_url start_date_str end_date_str fuel
  = {| returned := Some (None, Some msg);
       requests := map body_at (seq 0 (S (List.length pages))) |}.
Proof.
  intros Hserve Hfull Herr Hfuel. unfold fetch_gsc_data.
  destruct (loop_pages pages fuel [] O 0 [] Hserve Hfull Hfuel) as [pc' Heq].
  change 0 with (Z.of_nat 0 * ROW_LIMIT_PER_REQUEST) at 1.
  rewrite Heq. cbn [app Nat.add].
  destruct (fuel - List.length pages)%nat as [|rest] eqn:Hrest; [lia|].
  rewrite (loop_error rest _ _ _ _ msg Herr).
  rewrite seq_S, map_app. reflexivity.
Qed.

End FetchProperties.

(** ** The loader: counters and the loop *)

Section LoadProperties.
Import Load.
Variable str_upper : string -> string.
Variable env : pg_env.
Variable site : string.

Local Abbreviation values_of := (row_values str_upper site).

Lemma count_status_cases (s : string) (i u : Z) :
  (s = "INSERT 0 1" /\ count_status s (i, u) = (i + 1, u))
  \/ (s <> "INSERT 0 1" /\ PyStr.contains "UPDATE 1" s = true
      /\ count_status s (i, u) = (i, u + 1))
  \/ (s <> "INSERT 0 1" /\ PyStr.contains "UPDATE 1" s = false
      /\ count_status s (i, u) = (i, u)).
Proof.
  unfold count_status.
  destruct (String.eqb_spec s "INSERT 0 1") as [->|Hne]; [left; auto|].
  right. destruct (PyStr.contains "UPDATE 1" s); [left|right]; auto.
Qed.

(** A status message moves the pair of counters by at most one in total and
    never down. *)
Lemma count_status_bounds (s : string) (c : Z * Z) :
  fst c <= fst (count_status s c) /\ snd c <= snd (count_status s c)
  /\ fst (count_status s c) + snd (count_status s c) <= fst c + snd c + 1.
Proof.
  destruct c as [i u].
  destruct (count_status_cases s i u) as [[_ ->]|[(_ & _ & ->)|(_ & _ & ->)]];
    cbn; lia.
Qed.

Lemma tally_bounds (ss : list string) :
  forall c,
    fst c <= fst (tally ss c) /\ snd c <= snd (tally ss c)
    /\ fst (tally ss c) + snd (tally ss c)
       <= fst c + snd c + Z.of_nat (List.length ss).
Proof.
  induction ss as [|s ss IH]; intros c.
  - cbn. lia.
  - unfold tally in *. cbn [fold_left List.length].
    specialize (IH (count_status s c)).
    pose proof (count_status_bounds s c). lia.
Qed.

(** The loop when no execution raises. *)
Lemma for_rows_completes (rows : list gsc_row) :
  forall executed counts calls ss,
    status_messages str_upper env site rows executed = Some ss ->
    for_rows str_upper env site rows executed counts calls
    = (tally ss counts, executed ++ map values_of rows,
       calls ++ executed_ok str_upper site rows, None).
Proof.
  induction rows as [|row rows IH]; intros executed counts calls ss Hss.
  - cbn in *. injection Hss as <-. rewrite !app_nil_r. reflexivity.
  - cbn [status_messages for_rows] in *.
    destruct (pg_execute env executed (row_values str_upper site row)) as [s|e];
      [|discriminate].
    destruct (status_messages str_upper env site rows _) as [ss'|] eqn:Hrest;
      [|discriminate].
    cbn in Hss. injection Hss as <-.
    rewrite (IH _ _ _ ss' Hrest). cbn [map executed_ok].
    rewrite <- !app_assoc. reflexivity.
Qed.

(** The loop when the execution for [row] raises after those for [pre]
    completed: the rows of [post] are not looked at. *)
Lemma for_rows_raises (pre : list gsc_row) :
  forall executed counts calls ss row post e,
    status_messages str_upper env site pre executed = Some ss ->
    pg_execute env (executed ++ map values_of pre) (values_of row)
    = ExecuteRaises e ->
    for_rows str_upper env site (pre ++ row :: post) executed counts calls
    = (tally ss counts, executed ++ map values_of pre,
       calls ++ executed_ok str_upper site pre
             ++ [Execute Sql.upsert_sql (values_of row) false],
       Some e).
Proof.
  induction pre as [|r pre IH]; intros executed counts calls ss row post e Hss Hex.
  - cbn in Hss. injection Hss as <-. cbn [app map] in *.
    rewrite app_nil_r in Hex. cbn [for_rows].
    rewrite Hex. rewrite app_nil_r. reflexivity.
  - cbn [status_messages for_rows app] in *.
    destruct (pg_execute env executed (row_values str_upper site r)) as [s|e'];
      [|discriminate].
    destruct (status_messages str_upper env site pre _) as [ss'|] eqn:Hrest;
      [|discriminate].
    cbn in Hss. injection Hss as <-.
    rewrite (IH _ _ _ ss' row post e Hrest).
    + cbn [map executed_ok]. rewrite <- !app_assoc. reflexivity.
    + cbn [map] in Hex. rewrite <- app_assoc. exact Hex.
Qed.

(** Whatever the store answers, the counters the loop ends with are bounded
    by the number of rows. *)
Lemma for_rows_bounds (rows : list gsc_row) :
  forall executed counts calls,
    let c := fst (fst (fst (for_rows str_upper env site rows executed counts calls))) in
    fst counts <= fst c /\ snd counts <= snd c
    /\ fst c + snd c <= fst counts + snd counts + Z.of_nat (List.length rows).
Proof.
  induction rows as [|row rows IH]; intros executed counts calls.
  - cbn. lia.
  - cbn [for_rows List.length].
    destruct (pg_execute env executed (row_values str_upper site row)) as [s|e].
    + specialize (IH (executed ++ [row_values str_upper site row])
                     (count_status s counts)
                     (calls ++ [Execute Sql.upsert_sql (row_values str_upper site row) true])).
      cbv zeta in IH. pose proof (count_status_bounds s counts). lia.
    + cbn. lia.
Qed.

(** The loop only adds [Execute] events of the one statement. *)
Lemma for_rows_calls (rows : list gsc_row) :
  forall executed counts calls,
    exists added,
      snd (fst (for_rows str_upper env site rows executed counts calls)) = calls ++ added
      /\ Forall (fun ev => exists v ok, ev = Execute Sql.upsert_sql v ok) added.
Proof.
  induction rows as [|row rows IH]; intros executed counts calls.
  - exists []. cbn. rewrite app_nil_r. auto.
  - cbn [for_rows].
    destruct (pg_execute env executed (row_values str_upper site row)) as [s|e].
    + destruct (IH (executed ++ [row_values str_upper site row]) (count_status s counts)
                   (calls ++ [Execute Sql.upsert_sql (row_values str_upper site row) true]))
        as (added & -> & Hall).
      exists (Execute Sql.upsert_sql (row_values str_upper site row) true :: added).
      rewrite <- app_assoc. split; [reflexivity|].
      constructor; eauto.
    + exists [Execute Sql.upsert_sql (row_values str_upper site row) false].
      cbn. split; [reflexivity|]. constructor; eauto.
Qed.

End LoadProperties.

(** ** The loader: runs *)

Section LoaderRuns.
Import Load.
Variable str_upper : string -> string.
Variable env : pg_env.
Variable site : string.

Local Abbreviation values_of := (row_values str_upper site).
Local Abbreviation load := (load_data_to_postgres str_upper env site).

(** The local variables when the [try] block is left: the counters are
    within bounds, [cur] is assigned only on a connection, and without a
    connection nothing beyond a failed [connect] was called. *)
Lemma try_block_locals (db_url : option string) (rows : list gsc_row) :
  let l := try_block str_upper env site db_url rows in
  (0 <= inserted_count l /\ 0 <= updated_count l
   /\ inserted_count l + updated_count l <= Z.of_nat (List.length rows))
  /\ (cur l = true -> conn l = true)
  /\ (conn l = false ->
      raised l <> None
      /\ (calls l = [] \/ exists dsn, calls l = [Connect dsn false])).
Proof.
  unfold try_block.
  destruct db_url as [dsn|];
    [|cbn; repeat split; try lia; try discriminate; auto].
  destruct (PyStr.truthy dsn);
    [|cbn; repeat split; try lia; try discriminate; auto].
  cbn [negb].
  destruct (pg_connect env dsn);
    [|cbn; repeat split; try lia; try discriminate; eauto].
  destruct (pg_cursor env);
    [|cbn; repeat split; try lia; try discriminate; auto].
  pose proof (for_rows_bounds str_upper env site rows [] (0, 0)
                [Connect dsn true; Cursor true]) as Hb.
  destruct (for_rows str_upper env site rows [] (0, 0) [Connect dsn true; Cursor true])
    as [[[counts executed] calls] exn].
  cbn in Hb.
  destruct exn; [|destruct (pg_commit env executed)];
    cbn; repeat split; try lia; try discriminate; auto.
Qed.

(** C9.  With no rows the function returns [(0, 0, "Nenhum dado para
    carregar.")] whatever the connection string and the store are, and
    calls nothing: no connection is opened, no statement executed. *)
Theorem load_nothing (db_url : option string) :
  load_data_to_postgres str_upper env site db_url []
  = {| result := Returned 0 0 no_data_msg; trace := [] |}.
Proof. reflexivity. Qed.

(** C6, as the code has it.  With at least one row and a connection string
    that is [None] or empty, the function returns
    [(0, 0, "❌ ERRO PostgreSQL: DATABASE_URL não está configurada.")]
    and has called nothing: there is no connection attempt and no row is
    executed. *)
Theorem load_without_connection_string (db_url : option string)
        (rows : list gsc_row) :
  rows <> [] ->
  PyStr.truthy_opt db_url = false ->
  load_data_to_postgres str_upper env site db_url rows
  = {| result := Returned 0 0 (error_msg not_configured); trace := [] |}.
Proof.
  intros Hrows Hurl. destruct rows as [|row rows]; [congruence|].
  unfold load_data_to_postgres, try_block.
  destruct db_url as [dsn|]; [|reflexivity].
  cbn in Hurl. rewrite Hurl. reflexivity.
Qed.

(** X22.  For a non-empty input and a usable connection string:
    - if [connect] raises, nothing else is called and the function
      returns [(0, 0, error_msg)];
    - if the execution for a row raises after the rows before it were
      executed, the rows after it are not executed, there is no commit,
      and [rollback] is called;
    - if [commit] raises after all rows were executed, [rollback] is
      called.
    In the last two cases the cursor and the connection are then closed,
    and the function returns the counters of the rows executed with the
    error message if [rollback] completed; if [rollback] raised, its
    exception leaves the function and nothing is returned. *)
Theorem load_error_rolls_back (dsn : string) (rows : list gsc_row) :
  rows <> [] ->
  PyStr.truthy dsn = true ->
  (forall e,
      pg_connect env dsn = Raises e ->
      load (Some dsn) rows
      = {| result := Returned 0 0 (error_msg e);
           trace := [Connect dsn false] |})
  /\ (forall pre row post ss e,
         rows = pre ++ row :: post ->
         pg_connect env dsn = Completes ->
         pg_cursor env = Completes ->
         status_messages str_upper env site pre [] = Some ss ->
         pg_execute env (map values_of pre) (values_of row)
         = ExecuteRaises e ->
         load (Some dsn) rows
         = {| result := after_rollback env (fst (tally ss (0, 0)))
                                       (snd (tally ss (0, 0))) e;
              trace := [Connect dsn true; Cursor true]
                         ++ executed_ok str_upper site pre
                         ++ [Execute Sql.upsert_sql (values_of row) false;
                             Rollback; CursorClose; ConnClose] |})
  /\ (forall ss e,
         pg_connect env dsn = Completes ->
         pg_cursor env = Completes ->
         status_messages str_upper env site rows [] = Some ss ->
         pg_commit env (map values_of rows) = Raises e ->
         load (Some dsn) rows
         = {| result := after_rollback env (fst (tally ss (0, 0)))
                                       (snd (tally ss (0, 0))) e;
              trace := [Connect dsn true; Cursor true]
                         ++ executed_ok str_upper site rows
                         ++ [Commit false; Rollback; CursorClose;
                             ConnClose] |}).
Proof.
  intros Hrows Hdsn.
  assert (Hload : load (Some dsn) rows
                  = let l := try_block str_upper env site (Some dsn) rows in
                    finally_clause l (except_clause env l)).
  { unfold load_data_to_postgres.
    destruct rows; [congruence|reflexivity]. }
  rewrite Hload. clear Hload. unfold try_block. rewrite Hdsn. cbn [negb].
  repeat split.
  - intros e Hc. rewrite Hc. reflexivity.
  - intros pre row post ss e -> Hc Hk Hss Hex. rewrite Hc, Hk.
    rewrite (for_rows_raises str_upper env site pre [] (0, 0) _ ss row post e
               Hss Hex).
    cbv zeta. unfold except_clause, finally_clause, after_rollback.
    cbn [raised conn cur inserted_count updated_count calls].
    destruct (pg_rollback env); cbn [settle app];
      rewrite <- !app_assoc; reflexivity.
  - intros ss e Hc Hk Hss Hcommit. rewrite Hc, Hk.
    rewrite (for_rows_completes str_upper env site rows [] (0, 0) _ ss Hss).
    cbn [app]. rewrite Hcommit.
    unfold except_clause, finally_clause, after_rollback.
    cbn [raised conn cur inserted_count updated_count calls].
    destruct (pg_rollback env); cbn [settle app];
      rewrite <- !app_assoc; reflexivity.
Qed.

(** X6.  When no call raises, every row is executed in order, the transaction
    is committed once, and the counters are returned with the summary. *)
Lemma load_success (dsn : string) (rows : list gsc_row) (ss : list string) :
  rows <> [] ->
  PyStr.truthy dsn = true ->
  pg_connect env dsn = Completes ->
  pg_cursor env = Completes ->
  status_messages str_upper env site rows [] = Some ss ->
  pg_commit env (map values_of rows) = Completes ->
  load (Some dsn) rows
  = {| result := Returned (fst (tally ss (0, 0))) (snd (tally ss (0, 0)))
                          (success_msg (fst (tally ss (0, 0)))
                                       (snd (tally ss (0, 0))));
       trace := [Connect dsn true; Cursor true] ++ executed_ok str_upper site rows
                  ++ [Commit true; CursorClose; ConnClose] |}.
Proof.
  intros Hrows Hdsn Hc Hk Hss Hcommit.
  unfold load_data_to_postgres.
  destruct rows as [|r rows']; [congruence|].
  unfold try_block. rewrite Hdsn, Hc, Hk. cbn [negb].
  rewrite (for_rows_completes str_upper env site _ [] (0, 0) _ ss Hss).
  cbn [app]. rewrite Hcommit.
  unfold except_clause, finally_clause.
  cbn [raised conn cur inserted_count updated_count calls].
  cbn [app]. rewrite <- !app_assoc. reflexivity.
Qed.

(** C10.  One status message moves exactly one counter by one, or none:
    the insert counter for ["INSERT 0 1"], the update counter for another
    message that contains ["UPDATE 1"].  Whenever the function returns,
    both counters are nonnegative and their sum is at most the number of
    input rows. *)
Theorem load_counts_bounded :
  (forall s i u,
      (s = "INSERT 0 1" /\ count_status s (i, u) = (i + 1, u))
      \/ (s <> "INSERT 0 1" /\ PyStr.contains "UPDATE 1" s = true
          /\ count_status s (i, u) = (i, u + 1))
      \/ (s <> "INSERT 0 1" /\ PyStr.contains "UPDATE 1" s = false
          /\ count_status s (i, u) = (i, u)))
  /\ (forall db_url rows i u msg,
         result (load db_url rows) = Returned i u msg ->
         0 <= i /\ 0 <= u /\ i + u <= Z.of_nat (List.length rows)).
Proof.
  split; [exact count_status_cases|].
  intros db_url rows i u msg Hres.
  unfold load_data_to_postgres in Hres.
  destruct rows as [|row rows].
  - cbn in Hres. injection Hres as <- <- _. cbn. lia.
  - destruct (try_block_locals db_url (row :: rows)) as (Hb & _ & _).
    cbv zeta in Hb.
    set (l := try_block str_upper env site db_url (row :: rows)) in *.
    unfold finally_clause, except_clause in Hres.
    destruct (raised l), (conn l), (cur l), (pg_rollback env); cbn in Hres;
      try discriminate; injection Hres as <- <- _; exact Hb.
Qed.

(** X7.  When [conn.cursor()] completes on every connection, a run that was
    handed a connection ends by closing the cursor and then the connection,
    whether the function returns or the exception of a raising
    [rollback] leaves it. *)
Lemma load_closes_when_cursor_created (db_url : option string)
      (rows : list gsc_row) :
  pg_cursor env = Completes ->
  acquired (trace (load db_url rows)) ->
  (exists before,
      trace (load db_url rows) = before ++ [CursorClose; ConnClose])
  /\ (pg_rollback env = Completes ->
      exists i u msg, result (load db_url rows) = Returned i u msg).
Proof.
  intros Hk [dsn Hin]. unfold load_data_to_postgres in *.
  destruct rows as [|row rows]; [destruct Hin|].
  unfold try_block in *.
  destruct db_url as [d|]; [|destruct Hin].
  destruct (PyStr.truthy d); [|destruct Hin]. cbn [negb] in *.
  destruct (pg_connect env d).
  - rewrite Hk in *.
    destruct (for_rows str_upper env site (row :: rows) [] (0, 0)
                       [Connect d true; Cursor true])
      as [[[counts executed] calls] exn].
    destruct exn; [|destruct (pg_commit env executed)];
      unfold except_clause, finally_clause;
      cbn [raised conn cur inserted_count updated_count Load.calls];
      destruct (pg_rollback env); cbn [trace result settle];
      (split; [eauto|intros Hr; try discriminate Hr; eauto]).
  - cbn in Hin. destruct Hin as [Hin|[]]. discriminate.
Qed.

End LoaderRuns.

(** ** The tuple built for a row *)

Section RowValues.
Import Load.

(** The four unpacked names are the first four keys, [None] where the
    list is shorter. *)
Lemma pad4_nth (keys : list string) (i : nat) :
  (i < 4)%nat -> nth i (pad4 keys) None = nth_error keys i.
Proof.
  intros Hi. unfold pad4.
  destruct keys as [|k0 [|k1 [|k2 [|k3 rest]]]];
    destruct i as [|[|[|[|i]]]]; try lia; reflexivity.
Qed.

(** C5, as the code has it.  In the tuple built for a row, the search type
    is ["WEB"]; the device is what [str.upper] gives for the fourth key, or
    ["UNKNOWN"] when that key is missing or empty; the page and the query
    are the second and third keys, or ["N/A"] when missing or empty; the
    date is the first key, and is [None], with no sentinel, when the row
    has no key. *)
Theorem row_values_dimensions (str_upper : string -> string)
        (site_url_prop : string) (row : gsc_row) :
  let keys := get_or (row_keys row) [] in
  let values := row_values str_upper site_url_prop row in
  v_search_type values = "WEB"
  /\ v_device values
     = match nth_error keys 3 with
       | Some (String c d) => str_upper (String c d)
       | _ => "UNKNOWN"
       end
  /\ v_page values
     = match nth_error keys 1 with
       | Some (String c p) => String c p
       | _ => "N/A"
       end
  /\ v_query values
     = match nth_error keys 2 with
       | Some (String c q) => String c q
       | _ => "N/A"
       end
  /\ v_data values = nth_error keys 0.
Proof.
  cbv zeta. unfold row_values.
  cbn [v_search_type v_device v_page v_query v_data].
  rewrite !pad4_nth by lia.
  set (keys := get_or (row_keys row) []).
  repeat split.
  - destruct (nth_error keys 3) as [[|c d]|]; reflexivity.
  - destruct (nth_error keys 1) as [[|c d]|]; reflexivity.
  - destruct (nth_error keys 2) as [[|c d]|]; reflexivity.
Qed.

(** C5 as stated fails on the date: a row without keys gives a tuple whose
    date is [None], while its page, query and device are the sentinels. *)
Lemma row_values_date_has_no_sentinel :
  let values := row_values Instances.ascii_upper GSC_SITE_URL
                           Instances.bare_row in
  v_data values = None
  /\ v_page values = "N/A" /\ v_query values = "N/A"
  /\ v_device values = "UNKNOWN"
  /\ ~ (exists sentinel, v_data values = Some sentinel).
Proof.
  cbn. repeat split. intros [s Hs]. discriminate.
Qed.

End RowValues.

(** ** The timestamp column *)

Section Timestamp.
Import Sql Pg.

Lemma upsert_sql_timestamp_clauses :
  position_of data_extracao (insert_columns upsert_sql) = None
  /\ assignment_of data_extracao (do_update_set upsert_sql)
     = Some CURRENT_TIMESTAMP.
Proof. split; reflexivity. Qed.

(** The row written by the statement: updated on the conflict path,
    proposed on the insert path. *)
Lemma exec_upsert_written def now stmt ps (tbl : list tuple) :
  let '(_, written, conflict) := exec_upsert def now stmt ps tbl in
  if conflict
  then exists t, In t tbl /\ conflicts def now stmt ps t = true
                 /\ written = updated def now stmt ps t
  else written = proposed def now stmt ps
       /\ forallb (fun t => negb (conflicts def now stmt ps t)) tbl = true.
Proof.
  induction tbl as [|t tbl IH]; cbn [exec_upsert].
  - split; reflexivity.
  - destruct (conflicts def now stmt ps t) eqn:Hc.
    + exists t. cbn. auto.
    + destruct (exec_upsert def now stmt ps tbl) as [[tbl' w] b].
      destruct b.
      * destruct IH as (t' & Hin & Hc' & ->). exists t'. cbn. auto.
      * destruct IH as [-> Hall]. cbn [forallb]. rewrite Hc, Hall. auto.
Qed.

(** C7.  Every statement the loader executes is [upsert_sql].  On the table
    as the spec describes it, the row the statement writes has
    [data_extracao] set to the current time, on the conflict path, where
    the statement assigns it, and on the insert path, where the statement
    does not name the column and the row takes the column's default.  On
    any table the conflict path sets it to the current time and the insert
    path gives it the default that table declares. *)
Theorem upsert_timestamp (str_upper : string -> string) (env : Load.pg_env)
        (site : string) (db_url : option string) (rows : list gsc_row)
        (stmt : upsert_stmt) (values : Load.upsert_values) (ok : bool) :
  In (Load.Execute stmt values ok)
     (Load.trace (Load.load_data_to_postgres str_upper env site db_url rows)) ->
  stmt = upsert_sql
  /\ (forall now tbl,
         let '(_, written, _) :=
           exec_upsert gsc_desempenho now stmt (params values) tbl in
         written data_extracao = Timestamp now)
  /\ (forall def now tbl,
         let '(_, written, conflict) :=
           exec_upsert def now stmt (params values) tbl in
         written data_extracao
         = if conflict then Timestamp now
           else default_value (def data_extracao) now).
Proof.
  intros Hin.
  assert (Hstmt : stmt = upsert_sql).
  { unfold Load.load_data_to_postgres in Hin.
    destruct rows as [|row rows]; [destruct Hin|].
    unfold Load.try_block in Hin.
    destruct db_url as [d|]; [|destruct Hin].
    destruct (PyStr.truthy d); [|destruct Hin]. cbn [negb] in Hin.
    destruct (Load.pg_connect env d);
      [|cbn in Hin; destruct Hin as [Hin|[]]; discriminate].
    destruct (Load.pg_cursor env).
    2:{ unfold Load.except_clause, Load.finally_clause in Hin.
        cbn [Load.raised Load.conn Load.cur Load.calls] in Hin.
        destruct (Load.pg_rollback env); cbn in Hin;
          destruct Hin as [Hin|[Hin|[Hin|[]]]]; discriminate. }
    destruct (for_rows_calls str_upper env site (row :: rows) [] (0, 0)
                [Load.Connect d true; Load.Cursor true])
      as (added & Hcalls & Hall).
    destruct (Load.for_rows str_upper env site (row :: rows) [] (0, 0)
                [Load.Connect d true; Load.Cursor true])
      as [[[counts executed] calls] exn].
    cbn [fst snd] in Hcalls. subst calls.
    rewrite Forall_forall in Hall.
    assert (Hadded : In (Load.Execute stmt values ok) added).
    { destruct exn; [|destruct (Load.pg_commit env executed)];
        unfold Load.except_clause, Load.finally_clause in Hin;
        cbn [Load.raised Load.conn Load.cur Load.inserted_count
             Load.updated_count Load.calls] in Hin;
        destruct (Load.pg_rollback env); cbn [Load.trace] in Hin;
        repeat (apply in_app_or in Hin as [Hin|Hin]);
        cbn in Hin; intuition (try discriminate). }
    destruct (Hall _ Hadded) as (v & k & Heq). congruence. }
  split; [exact Hstmt|]. subst stmt.
  assert (Hgen : forall def now tbl,
             let '(_, written, conflict) :=
               exec_upsert def now upsert_sql (params values) tbl in
             written data_extracao
             = if conflict then Timestamp now
               else default_value (def data_extracao) now).
  { intros def now tbl.
    pose proof (exec_upsert_written def now upsert_sql (params values) tbl)
      as Hw.
    destruct (exec_upsert def now upsert_sql (params values) tbl)
      as [[tbl' w] b].
    destruct b.
    - destruct Hw as (t & _ & _ & ->). reflexivity.
    - destruct Hw as [-> _]. reflexivity. }
  split; [|exact Hgen].
  intros now tbl. specialize (Hgen gsc_desempenho now tbl).
  destruct (exec_upsert gsc_desempenho now upsert_sql (params values) tbl)
    as [[tbl' w] b].
  rewrite Hgen. destruct b; reflexivity.
Qed.

End Timestamp.

(** ** The trigger: the [days] parameter and the target date *)

Section TriggerProperties.
Import Fetch Trigger.
Variable py_int : string -> option Z.
Variable strftime_ymd : Z -> string.
Variable str_upper : string -> string.

Local Abbreviation days_of := (days_param py_int).
Local Abbreviation trigger := (trigger_gsc_sync py_int strftime_ymd str_upper).

Lemma args_get_absent (a : query_args) (key default : string) :
  args_has a key = false -> args_get a key default = default.
Proof.
  induction a as [|[k v] a IH]; [reflexivity|].
  cbn. destruct (String.eqb k key); [discriminate|]. exact IH.
Qed.

(** Every request of a fetch carries the two dates the fetch was given. *)
Lemma fetch_loop_dates service site d1 d2 :
  forall fuel acc start_row pc sent b,
    (forall b', In b' sent -> startDate b' = d1 /\ endDate b' = d2) ->
    In b (requests (fetch_loop service site d1 d2 fuel acc start_row pc sent)) ->
    startDate b = d1 /\ endDate b = d2.
Proof.
  induction fuel as [|fuel IH]; intros acc start_row pc sent b Hsent Hin.
  - cbn in Hin. auto.
  - cbn [fetch_loop] in Hin.
    set (rb := mk_body d1 d2 start_row) in *.
    assert (Hsent' : forall b', In b' (sent ++ [rb]) ->
                                startDate b' = d1 /\ endDate b' = d2).
    { intros b' Hb'. apply in_app_or in Hb' as [Hb'|[<-|[]]]; auto. }
    destruct (service site rb) as [resp|e|e]; cbn in Hin; auto.
    destruct (rows_of resp) as [|r rows]; cbn in Hin; auto.
    destruct (_ <? _); cbn in Hin; eauto.
Qed.

(** The handler reads the query string only through [days_param]. *)
Lemma trigger_depends_on_days (w : world) (fuel : nat) (a a' : query_args) :
  days_of a = days_of a' -> trigger w fuel a = trigger w fuel a'.
Proof.
  intros Hd. unfold trigger_gsc_sync.
  rewrite Hd. reflexivity.
Qed.

Lemma date_minus_days_is_subtraction (d days o : Z) :
  date_minus_days d days = Some o -> o = d - days.
Proof.
  unfold date_minus_days.
  destruct (_ <=? _); [|discriminate].
  destruct (_ && _); [|discriminate]. congruence.
Qed.

Lemma args_get_first (pre post : query_args) (key value default : string) :
  args_has pre key = false ->
  args_get (pre ++ (key, value) :: post) key default = value.
Proof.
  induction pre as [|[k v] pre IH]; cbn.
  - rewrite String.eqb_refl. reflexivity.
  - destruct (String.eqb k key); [discriminate|]. exact IH.
Qed.

End TriggerProperties.

(** ** Runs on concrete environments *)

Section Runs.
Import Fetch Load Trigger Instances.

(** Three full pages and a page of seven rows: four requests,
    [3 * 5000 + 7] rows.  A first page of seven rows, and a first response
    without rows: one request. *)
Lemma fetch_pagination_witness :
  (fetch_gsc_data four_pages GSC_SITE_URL day day 4
   = {| returned := Some (Some (List.concat [full_page; full_page; full_page]
                                  ++ short_page), None);
        requests := map (nth_body day day) [0; 1; 2; 3]%nat |}
   /\ Z.of_nat (List.length (List.concat [full_page; full_page; full_page]
                               ++ short_page)) = 3 * 5000 + 7)
  /\ fetch_gsc_data (scripted [Response (Some short_page)])
                    GSC_SITE_URL day day 1
     = {| returned := Some (Some short_page, None);
          requests := [nth_body day day 0] |}
  /\ fetch_gsc_data (scripted [Response None]) GSC_SITE_URL day day 1
     = {| returned := Some (Some [], None);
          requests := [nth_body day day 0] |}.
Proof.
  assert (Hnone : forall service i,
             (i < List.length (@nil (list gsc_row)))%nat ->
             service GSC_SITE_URL (nth_body day day i)
             = Response (Some (nth i [] []))).
  { intros service i Hi. cbn in Hi. lia. }
  assert (Hone : (List.length (@nil (list gsc_row)) < 1)%nat).
  { cbn. lia. }
  split; [|split;
           [apply (fetch_pagination _ GSC_SITE_URL day day [] (Some short_page) 1
                     (Hnone _) (Forall_nil _) eq_refl);
            [apply Z.ltb_lt; reflexivity|exact Hone]
           |apply (fetch_pagination _ GSC_SITE_URL day day [] None 1
                     (Hnone _) (Forall_nil _) eq_refl);
            [apply Z.ltb_lt; reflexivity|exact Hone]]].
  assert (Hserve : forall i,
             (i < List.length [full_page; full_page; full_page])%nat ->
             four_pages GSC_SITE_URL (nth_body day day i)
             = Response (Some (nth i [full_page; full_page; full_page] []))).
  { intros i Hi. destruct i as [|[|[|i]]]; try reflexivity.
    cbn in Hi. lia. }
  assert (Hfull : Forall (fun p => ROW_LIMIT_PER_REQUEST
                                   <= Z.of_nat (List.length p))
                         [full_page; full_page; full_page]).
  { repeat constructor; apply Z.leb_le; reflexivity. }
  assert (Hshort : Z.of_nat (List.length (rows_of (Some short_page)))
                   < ROW_LIMIT_PER_REQUEST).
  { apply Z.ltb_lt. reflexivity. }
  assert (Hfuel : (List.length [full_page; full_page; full_page] < 4)%nat).
  { cbn. lia. }
  destruct (fetch_pagination four_pages GSC_SITE_URL day day
              [full_page; full_page; full_page] (Some short_page) 4
              Hserve Hfull eq_refl Hshort Hfuel) as [Hrun Hlen].
  split; [exact Hrun|].
  apply Hlen. repeat constructor.
Defined.

(** An [HttpError] on the second of three pages: the full first page is
    not returned. *)
Lemma fetch_error_returns_no_rows_witness :
  let service := scripted [Response (Some full_page);
                           RaisesHttpError "503 Service Unavailable";
                           Response (Some short_page)] in
  returned (fetch_gsc_data service GSC_SITE_URL day day 5)
  = Some (None, Some (http_error_msg "503 Service Unavailable"))
  /\ exists before,
       requests (fetch_gsc_data service GSC_SITE_URL day day 5)
       = before ++ [nth_body day day 1].
Proof.
  cbv zeta.
  apply (fetch_error_returns_no_rows _ GSC_SITE_URL day day 5
           (nth_body day day 1)).
  - vm_compute. right. left. reflexivity.
  - reflexivity.
Defined.


Lemma load_error_rolls_back_witness :
  load_data_to_postgres ascii_upper refusing GSC_SITE_URL (Some dsn) four_rows
  = {| result := Returned 0 0 (error_msg "connection refused");
       trace := [Connect dsn false] |}
  /\ load_data_to_postgres ascii_upper failing_third GSC_SITE_URL (Some dsn) four_rows
     = {| result := Returned 1 1 (error_msg "null value in column data");
          trace := [Connect dsn true; Cursor true]
                     ++ executed_ok ascii_upper GSC_SITE_URL [sample_row; other_row]
                     ++ [Execute Sql.upsert_sql
                                 (row_values ascii_upper GSC_SITE_URL bare_row) false;
                         Rollback; CursorClose; ConnClose] |}
  /\ load_data_to_postgres ascii_upper failing_commit GSC_SITE_URL (Some dsn) four_rows
     = {| result := Returned 2 1 (error_msg "server closed the connection");
          trace := [Connect dsn true; Cursor true]
                     ++ executed_ok ascii_upper GSC_SITE_URL four_rows
                     ++ [Commit false; Rollback; CursorClose; ConnClose] |}.
Proof.
  assert (Hne : four_rows <> []) by discriminate.
  assert (Hdsn : PyStr.truthy dsn = true) by reflexivity.
  split; [|split].
  - apply (proj1 (load_error_rolls_back ascii_upper refusing GSC_SITE_URL dsn four_rows
                    Hne Hdsn)).
    reflexivity.
  - apply (proj1 (proj2 (load_error_rolls_back ascii_upper failing_third GSC_SITE_URL dsn
                           four_rows Hne Hdsn))
             [sample_row; other_row] bare_row [sample_row]
             ["INSERT 0 1"; "UPDATE 1"]);
      reflexivity.
  - apply (proj2 (proj2 (load_error_rolls_back ascii_upper failing_commit GSC_SITE_URL dsn
                           four_rows Hne Hdsn))
             ["INSERT 0 1"; "UPDATE 1"; "INSERT 0 0"; "INSERT 0 1"]);
      reflexivity.
Defined.

Lemma load_without_connection_string_witness :
  load_data_to_postgres ascii_upper refusing GSC_SITE_URL None four_rows
  = {| result := Returned 0 0 (error_msg not_configured); trace := [] |}
  /\ load_data_to_postgres ascii_upper refusing GSC_SITE_URL (Some "") four_rows
     = {| result := Returned 0 0 (error_msg not_configured); trace := [] |}.
Proof.
  split; apply load_without_connection_string;
    try discriminate; reflexivity.
Defined.

(** C6 as stated fails for the empty input: the test on [data_rows] comes
    first, so without a connection string the function returns the no-data
    message, which the caller does not take for an error. *)
Lemma load_no_rows_ignores_connection_string :
  load_data_to_postgres ascii_upper refusing GSC_SITE_URL None []
  = {| result := Returned 0 0 no_data_msg; trace := [] |}
  /\ no_data_msg <> error_msg not_configured
  /\ PyStr.contains "ERRO" no_data_msg = false.
Proof.
  split; [reflexivity|]. split; [discriminate|reflexivity].
Qed.

Lemma load_counts_bounded_witness :
  0 <= 1 /\ 0 <= 1 /\ 1 + 1 <= Z.of_nat (List.length four_rows).
Proof.
  apply (proj2 (load_counts_bounded ascii_upper failing_third GSC_SITE_URL)
           (Some dsn) four_rows 1 1
           (error_msg "null value in column data")).
  reflexivity.
Defined.

(** C8 fails when [conn.cursor()] raises: [cur] is never assigned, the
    lookup of [cur] in the [finally] clause raises, and the connection
    that [connect] handed out is not closed. *)
Theorem load_leaves_connection_open_when_cursor_raises :
  let env := scripted_store Completes (Raises "out of memory") [] Completes in
  let run := load_data_to_postgres ascii_upper env GSC_SITE_URL (Some dsn) [sample_row] in
  run = {| result := Escapes cur_unbound;
           trace := [Connect dsn true; Cursor false; Rollback] |}
  /\ acquired (trace run)
  /\ ~ In ConnClose (trace run).
Proof.
  cbv zeta. split; [reflexivity|]. split.
  - exists dsn. left. reflexivity.
  - cbn. intros [H|[H|[H|[]]]]; discriminate.
Qed.

(** A whole request with an unreadable [days]: the date processed is the
    day before yesterday and the answer is a success.  A [days] too large
    for a date leaves the handler with [OverflowError] before any fetch. *)
Example trigger_default_run :
  let w := a_world (scripted [Response (Some short_page)])
                   (scripted_store Completes Completes [] Completes) in
  response (trigger_gsc_sync ascii_int isoformat ascii_upper w 3 [("days", "two")])
  = Some (Jsonify [("status", JStr "success");
                   ("message",
                    JStr "Carregamento concluído! Inseridas: 7, Atualizadas: 0");
                   ("date_processed", JStr "2026-11-02");
                   ("rows_found", JInt 7);
                   ("inserted", JInt 7); ("updated", JInt 0)] 200)
  /\ trigger_gsc_sync ascii_int isoformat ascii_upper w 3 [("days", "99999999999")]
     = {| response := Some (Unhandled "OverflowError");
          gsc_sent := []; store_calls := [] |}.
Proof. split; vm_compute; reflexivity. Qed.

Lemma upsert_timestamp_witness :
  let values := row_values ascii_upper GSC_SITE_URL sample_row in
  let '(tbl1, first, _) :=
    Pg.exec_upsert Pg.gsc_desempenho 100 Sql.upsert_sql (Pg.params values) [] in
  let '(_, second, _) :=
    Pg.exec_upsert Pg.gsc_desempenho 200 Sql.upsert_sql (Pg.params values)
                   tbl1 in
  first Sql.data_extracao = Pg.Timestamp 100
  /\ second Sql.data_extracao = Pg.Timestamp 200.
Proof.
  cbv zeta.
  assert (Hin : In (Execute Sql.upsert_sql
                            (row_values ascii_upper GSC_SITE_URL sample_row)
                            true)
                   (trace (load_data_to_postgres ascii_upper failing_third
                             GSC_SITE_URL (Some dsn) four_rows))).
  { vm_compute. right. right. left. reflexivity. }
  destruct (upsert_timestamp ascii_upper failing_third GSC_SITE_URL (Some dsn)
              four_rows Sql.upsert_sql
              (row_values ascii_upper GSC_SITE_URL sample_row) true Hin)
    as (_ & Hspec & _).
  pose proof (Hspec 100 []) as H1.
  destruct (Pg.exec_upsert Pg.gsc_desempenho 100 Sql.upsert_sql
              (Pg.params (row_values ascii_upper GSC_SITE_URL sample_row)) [])
    as [[tbl1 first] c1].
  pose proof (Hspec 200 tbl1) as H2.
  destruct (Pg.exec_upsert Pg.gsc_desempenho 200 Sql.upsert_sql
              (Pg.params (row_values ascii_upper GSC_SITE_URL sample_row)) tbl1)
    as [[tbl2 second] c2].
  split; assumption.
Defined.

(** Loading a row twice into a table whose timestamp column defaults to
    the current time: the first load inserts and takes the default, the
    second takes the conflict path and sets the time of the second load. *)
Example upsert_twice :
  let values := row_values ascii_upper GSC_SITE_URL sample_row in
  let def := fun c => match c with
                      | Sql.data_extracao => Pg.DEFAULT_CURRENT_TIMESTAMP
                      | _ => Pg.NO_DEFAULT
                      end in
  let '(tbl1, w1, c1) :=
    Pg.exec_upsert def 100 Sql.upsert_sql (Pg.params values) [] in
  let '(tbl2, w2, c2) :=
    Pg.exec_upsert def 200 Sql.upsert_sql (Pg.params values) tbl1 in
  c1 = false /\ w1 Sql.data_extracao = Pg.Timestamp 100
  /\ c2 = true /\ w2 Sql.data_extracao = Pg.Timestamp 200
  /\ List.length tbl2 = 1%nat.
Proof. vm_compute. repeat split. Qed.

End Runs.

(** ** The fetch loop on an arbitrary service *)

Section FetchRuns.
Import Fetch.
Variable service : gsc_service.
Variables site_url start_date_str end_date_str : string.

Local Abbreviation body_at := (nth_body start_date_str end_date_str).
Local Abbreviation loop := (fetch_loop service site_url start_date_str end_date_str).
Local Abbreviation fetch := (fetch_gsc_data service site_url start_date_str end_date_str).
Local Abbreviation answer := (fun b => service site_url b).

Lemma body_at_offset (k : nat) :
  mk_body start_date_str end_date_str (Z.of_nat k * ROW_LIMIT_PER_REQUEST)
  = body_at k.
Proof. reflexivity. Qed.

Lemma seq_cons_map (k n : nat) (sent : list request_body) :
  (sent ++ [body_at k]) ++ map body_at (seq (S k) n)
  = sent ++ map body_at (seq k (S n)).
Proof. rewrite <- app_assoc. reflexivity. Qed.

(** The offsets of the requests of a run, finished or not. *)
Lemma loop_requests_offsets :
  forall fuel acc k pc sent,
  exists n,
    (n <= fuel)%nat /\ ((0 < fuel)%nat -> (0 < n)%nat)
    /\ requests (loop fuel acc (Z.of_nat k * ROW_LIMIT_PER_REQUEST) pc sent)
       = sent ++ map body_at (seq k n).
Proof.
  induction fuel as [|fuel IH]; intros acc k pc sent.
  - exists O. cbn. rewrite app_nil_r. repeat split; lia.
  - cbn [fetch_loop]. rewrite body_at_offset.
    assert (Hone : exists n, (n <= S fuel)%nat /\ ((0 < S fuel)%nat -> (0 < n)%nat)
                             /\ sent ++ [body_at k] = sent ++ map body_at (seq k n)).
    { exists 1%nat. repeat split; lia. }
    destruct (answer (body_at k)) as [resp|e|e]; try exact Hone.
    destruct (rows_of resp) as [|r rows]; try exact Hone.
    destruct (_ <? _); try exact Hone.
    rewrite next_offset.
    destruct (IH (acc ++ r :: rows) (S k)
                 (pc + Z.of_nat (List.length (r :: rows)))
                 (sent ++ [body_at k])) as (n & Hle & _ & ->).
    exists (S n). rewrite seq_cons_map. repeat split; lia.
Qed.

(** A run that returned rows: what was asked and what was answered. *)
Lemma loop_returns_rows :
  forall fuel acc k pc sent rows err,
    returned (loop fuel acc (Z.of_nat k * ROW_LIMIT_PER_REQUEST) pc sent)
    = Some (Some rows, err) ->
    err = None
    /\ exists n,
        requests (loop fuel acc (Z.of_nat k * ROW_LIMIT_PER_REQUEST) pc sent)
        = sent ++ map body_at (seq k (S n))
        /\ rows = acc ++ flat_map (fun b => reply_rows (answer b))
                                  (map body_at (seq k (S n)))
        /\ (forall i, (i < n)%nat ->
                      ROW_LIMIT_PER_REQUEST
                      <= Z.of_nat (List.length
                                     (reply_rows (answer (body_at (k + i))))))
        /\ Z.of_nat (List.length (reply_rows (answer (body_at (k + n)))))
           < ROW_LIMIT_PER_REQUEST
        /\ (forall i, (i <= n)%nat ->
                      reply_error (answer (body_at (k + i))) = None).
Proof.
  induction fuel as [|fuel IH]; intros acc k pc sent rows err Hret.
  - discriminate.
  - cbn [fetch_loop] in *. rewrite body_at_offset in *.
    destruct (answer (body_at k)) as [resp|e|e] eqn:Hreply; try discriminate.
    assert (Hstop : Z.of_nat (List.length (rows_of resp)) < ROW_LIMIT_PER_REQUEST ->
                    Some (Some (acc ++ rows_of resp), @None string)
                    = Some (Some rows, err) ->
                    err = None
                    /\ exists n,
                        sent ++ [body_at k] = sent ++ map body_at (seq k (S n))
                        /\ rows = acc ++ flat_map (fun b => reply_rows (answer b))
                                                  (map body_at (seq k (S n)))
                        /\ (forall i, (i < n)%nat ->
                              ROW_LIMIT_PER_REQUEST
                              <= Z.of_nat (List.length
                                             (reply_rows (answer (body_at (k + i))))))
                        /\ Z.of_nat (List.length
                                       (reply_rows (answer (body_at (k + n)))))
                           < ROW_LIMIT_PER_REQUEST
                        /\ (forall i, (i <= n)%nat ->
                              reply_error (answer (body_at (k + i))) = None)).
    { intros Hshort Heq. injection Heq as <- <-. split; [reflexivity|].
      exists O. cbn [seq map flat_map]. rewrite Nat.add_0_r, Hreply.
      cbn [reply_rows]. rewrite app_nil_r. repeat split; try assumption.
      - intros i Hi. lia.
      - intros i Hi. replace i with O by lia. rewrite Nat.add_0_r, Hreply.
        reflexivity. }
    destruct (rows_of resp) as [|r page] eqn:Hrows.
    + cbn [returned requests] in *. rewrite app_nil_r in Hstop.
      apply Hstop; [pose proof ROW_LIMIT_pos; cbn; lia|exact Hret].
    + destruct (Z.ltb_spec (Z.of_nat (List.length (r :: page)))
                           ROW_LIMIT_PER_REQUEST) as [Hlt|Hge].
      * cbn [returned requests] in *. apply Hstop; assumption.
      * rewrite next_offset in *.
        destruct (IH _ _ _ _ _ _ Hret) as (-> & n & Hreq & -> & Hfull & Hlast & Hok).
        split; [reflexivity|]. exists (S n).
        rewrite Hreq, seq_cons_map. split; [reflexivity|].
        split; [|split; [|split]].
        -- cbn [seq map flat_map]. rewrite Hreply. cbn [reply_rows].
           rewrite Hrows, <- app_assoc. reflexivity.
        -- intros i Hi. destruct i as [|i].
           ++ rewrite Nat.add_0_r, Hreply. cbn [reply_rows]. rewrite Hrows.
              exact Hge.
           ++ replace (k + S i)%nat with (S k + i)%nat by lia.
              apply Hfull. lia.
        -- replace (k + S n)%nat with (S k + n)%nat by lia. exact Hlast.
        -- intros i Hi. destruct i as [|i].
           ++ rewrite Nat.add_0_r, Hreply. reflexivity.
           ++ replace (k + S i)%nat with (S k + i)%nat by lia.
              apply Hok. lia.
Qed.

(** A run that returned no rows: its last request raised. *)
Lemma loop_returns_none :
  forall fuel acc start_row pc sent err,
    returned (loop fuel acc start_row pc sent) = Some (None, err) ->
    exists before b msg,
      requests (loop fuel acc start_row pc sent) = before ++ [b]
      /\ reply_error (answer b) = Some msg
      /\ err = Some msg.
Proof.
  induction fuel as [|fuel IH]; intros acc start_row pc sent err Hret.
  - discriminate.
  - cbn [fetch_loop] in *.
    set (rb := mk_body start_date_str end_date_str start_row) in *.
    destruct (answer rb) as [resp|e|e] eqn:Hreply.
    + destruct (rows_of resp) as [|r rows]; [discriminate|].
      destruct (_ <? _); [discriminate|]. eauto.
    + cbn in Hret. injection Hret as <-.
      exists sent, rb, (http_error_msg e). rewrite Hreply. auto.
    + cbn in Hret. injection Hret as <-.
      exists sent, rb, (unexpected_error_msg e). rewrite Hreply. auto.
Qed.

Lemma loop_more_fuel :
  forall fuel acc start_row pc sent extra x,
    returned (loop fuel acc start_row pc sent) = Some x ->
    loop (fuel + extra) acc start_row pc sent = loop fuel acc start_row pc sent.
Proof.
  induction fuel as [|fuel IH]; intros acc start_row pc sent extra x Hret.
  - discriminate.
  - cbn [fetch_loop Nat.add] in *.
    destruct (service site_url _) as [resp|e|e]; try reflexivity.
    destruct (rows_of resp) as [|r rows]; try reflexivity.
    destruct (_ <? _); try reflexivity. eauto.
Qed.

Lemma loop_never_returns :
  (forall b, ROW_LIMIT_PER_REQUEST
             <= Z.of_nat (List.length (reply_rows (answer b)))) ->
  forall fuel acc start_row pc sent,
    returned (loop fuel acc start_row pc sent) = None
    /\ List.length (requests (loop fuel acc start_row pc sent))
       = (List.length sent + fuel)%nat.
Proof.
  intros Hfull. induction fuel as [|fuel IH]; intros acc start_row pc sent.
  - cbn. split; [reflexivity|lia].
  - cbn [fetch_loop].
    set (rb := mk_body start_date_str end_date_str start_row).
    pose proof (Hfull rb) as Hrb. pose proof ROW_LIMIT_pos as Hpos.
    destruct (answer rb) as [resp|e|e]; cbn [reply_rows] in Hrb;
      try (cbn in Hrb; lia).
    destruct (rows_of resp) as [|r rows]; [cbn in Hrb; lia|].
    destruct (Z.ltb_spec (Z.of_nat (List.length (r :: rows)))
                         ROW_LIMIT_PER_REQUEST) as [Hlt|_]; [lia|].
    destruct (IH (acc ++ r :: rows) (start_row + ROW_LIMIT_PER_REQUEST)
                 (pc + Z.of_nat (List.length (r :: rows))) (sent ++ [rb]))
      as [-> ->].
    split; [reflexivity|]. rewrite length_app. cbn. lia.
Qed.

Lemma fetch_is_loop (fuel : nat) :
  fetch fuel = loop fuel [] (Z.of_nat 0 * ROW_LIMIT_PER_REQUEST) 0 [].
Proof. reflexivity. Qed.

(** X1.  Whatever the service answers, the requests of a run are those for
    the offsets [0], [P], [2P], ... in this order, without gaps: their number
    is at most the number of iterations, and at least one once the loop has
    been entered.  Each carries the page size [P] as row limit and the four
    dimensions date, page, query, device. *)
Theorem fetch_requests_advance_by_page (fuel : nat) :
  exists n,
    (n <= fuel)%nat /\ ((0 < fuel)%nat -> (0 < n)%nat)
    /\ requests (fetch fuel) = map body_at (seq 0 n)
    /\ Forall (fun b => rowLimit b = ROW_LIMIT_PER_REQUEST
                        /\ dimensions b = ["date"; "page"; "query"; "device"]
                        /\ startDate b = start_date_str
                        /\ endDate b = end_date_str)
              (requests (fetch fuel)).
Proof.
  destruct (loop_requests_offsets fuel [] O 0 []) as (n & Hle & Hpos & Hreq).
  exists n. rewrite fetch_is_loop, Hreq. cbn [app]. repeat split; try assumption.
  apply Forall_forall. intros b Hb. apply in_map_iff in Hb as (i & <- & _).
  repeat split.
Qed.

(** X2.  When the function returns rows, they are the rows of all the
    responses it got, in request order; no request raised; every response
    but the last held at least [P] rows and the last held fewer. *)
Theorem fetch_rows_are_the_pages (fuel : nat) (rows : list gsc_row)
        (err : option string) :
  returned (fetch fuel) = Some (Some rows, err) ->
  err = None
  /\ exists n,
      requests (fetch fuel) = map body_at (seq 0 (S n))
      /\ rows = flat_map (fun b => reply_rows (service site_url b))
                         (requests (fetch fuel))
      /\ (forall i, (i < n)%nat ->
                    ROW_LIMIT_PER_REQUEST
                    <= Z.of_nat (List.length
                                   (reply_rows (service site_url (body_at i)))))
      /\ Z.of_nat (List.length (reply_rows (service site_url (body_at n))))
         < ROW_LIMIT_PER_REQUEST
      /\ Forall (fun b => reply_error (service site_url b) = None)
                (requests (fetch fuel)).
Proof.
  rewrite fetch_is_loop. intros Hret.
  destruct (loop_returns_rows fuel [] O 0 [] rows err Hret)
    as (-> & n & Hreq & -> & Hfull & Hlast & Hok).
  split; [reflexivity|]. exists n. rewrite Hreq. cbn [app Nat.add] in *.
  repeat split; try assumption.
  apply Forall_forall. intros b Hb. apply in_map_iff in Hb as (i & <- & Hi).
  apply in_seq in Hi. apply (Hok i). lia.
Qed.

(** X3.  The function fails only when a request raised: a returned pair has
    rows and no message, or no rows and the message of the exception raised
    by the last request sent. *)
Theorem fetch_fails_only_on_exception (fuel : nat)
        (rows : option (list gsc_row)) (err : option string) :
  returned (fetch fuel) = Some (rows, err) ->
  (exists r, rows = Some r /\ err = None)
  \/ (rows = None
      /\ exists before b msg,
          requests (fetch fuel) = before ++ [b]
          /\ reply_error (service site_url b) = Some msg
          /\ err = Some msg).
Proof.
  rewrite fetch_is_loop. intros Hret. destruct rows as [r|].
  - left. exists r. split; [reflexivity|].
    apply (loop_returns_rows fuel [] O 0 [] r err Hret).
  - right. split; [reflexivity|].
    apply (loop_returns_none fuel [] 0 0 [] err Hret).
Qed.

(** X4.  The loop has no bound of its own: against a service that answers
    every request with at least [P] rows the function has not returned after
    any number of iterations, and has sent one request per iteration. *)
Theorem fetch_does_not_return_on_full_pages :
  (forall b, ROW_LIMIT_PER_REQUEST
             <= Z.of_nat (List.length (reply_rows (service site_url b)))) ->
  forall fuel,
    returned (fetch fuel) = None
    /\ List.length (requests (fetch fuel)) = fuel.
Proof.
  intros Hfull fuel. unfold fetch_gsc_data.
  destruct (loop_never_returns Hfull fuel [] 0 0 []) as [-> ->].
  split; reflexivity.
Qed.

(** The bound on the iterations is immaterial once the loop was left. *)
Lemma fetch_result_is_stable (fuel fuel' : nat)
        (x : option (list gsc_row) * option string) :
  returned (fetch fuel) = Some x ->
  (fuel <= fuel')%nat ->
  fetch fuel' = fetch fuel.
Proof.
  intros Hret Hle. unfold fetch_gsc_data in *.
  replace fuel' with (fuel + (fuel' - fuel))%nat by lia.
  apply (loop_more_fuel fuel [] 0 0 [] (fuel' - fuel) x Hret).
Qed.

End FetchRuns.

(** ** The loader: every run *)

Section LoaderCases.
Import Load.
Variable str_upper : string -> string.
Variable env : pg_env.
Variable site : string.

Local Abbreviation values_of := (row_values str_upper site).
Local Abbreviation load := (load_data_to_postgres str_upper env site).

(** *** The test ["ERRO" in load_message] *)

Lemma lacks_app (c : ascii) (a b : string) :
  PyStr.lacks c (a ++ b)%string = PyStr.lacks c a && PyStr.lacks c b.
Proof.
  induction a as [|x a IH]; [reflexivity|].
  cbn [String.append PyStr.lacks]. rewrite IH, andb_assoc. reflexivity.
Qed.

Lemma lacks_E_digits (d : Decimal.uint) :
  PyStr.lacks "E" (NilEmpty.string_of_uint d) = true.
Proof. induction d; cbn; auto. Qed.

Lemma lacks_E_of_int (n : Z) : PyStr.lacks "E" (PyStr.of_int n) = true.
Proof.
  unfold PyStr.of_int, NilZero.string_of_int, NilZero.string_of_uint.
  destruct (Z.to_int n) as [d|d]; destruct d;
    try reflexivity; cbn [PyStr.lacks]; apply (lacks_E_digits (_ d)) || idtac;
    cbn; apply lacks_E_digits.
Qed.

Lemma lacks_E_no_ERRO (s : string) :
  PyStr.lacks "E" s = true -> PyStr.contains "ERRO" s = false.
Proof.
  induction s as [|c s IH]; intros Hs; [reflexivity|].
  cbn [PyStr.lacks] in Hs. apply andb_true_iff in Hs as [Hc Hs].
  cbn [PyStr.contains String.prefix].
  destruct (ascii_dec "E" c) as [<-|_]; [discriminate|]. auto.
Qed.

Lemma error_msg_has_ERRO (e : string) :
  PyStr.contains "ERRO" (error_msg e) = true.
Proof. reflexivity. Qed.

Lemma success_msg_has_no_ERRO (i u : Z) :
  PyStr.contains "ERRO" (success_msg i u) = false.
Proof.
  apply lacks_E_no_ERRO. unfold success_msg.
  rewrite !lacks_app, !lacks_E_of_int. reflexivity.
Qed.

(** *** The events of the loop *)

Lemma executed_ok_events (rows : list gsc_row) (ev : pg_event) :
  In ev (executed_ok str_upper site rows) ->
  exists row, In row rows /\ ev = Execute Sql.upsert_sql (values_of row) true.
Proof.
  unfold executed_ok. intros Hin. apply in_map_iff in Hin as (row & <- & Hrow).
  eauto.
Qed.

Lemma executed_values_app (a b : list pg_event) :
  executed_values (a ++ b) = executed_values a ++ executed_values b.
Proof.
  induction a as [|ev a IH]; [reflexivity|].
  destruct ev; cbn [app executed_values]; rewrite IH; reflexivity.
Qed.

Lemma executed_values_ok (rows : list gsc_row) :
  executed_values (executed_ok str_upper site rows) = map values_of rows.
Proof.
  unfold executed_ok. induction rows as [|row rows IH]; [reflexivity|].
  cbn [map executed_values]. rewrite IH. reflexivity.
Qed.

(** Either every execution completes, or there is a first row whose
    execution raises. *)
Lemma status_messages_cases (rows : list gsc_row) :
  forall executed,
    (exists ss, status_messages str_upper env site rows executed = Some ss)
    \/ (exists pre row post ss e,
           rows = pre ++ row :: post
           /\ status_messages str_upper env site pre executed = Some ss
           /\ pg_execute env (executed ++ map values_of pre) (values_of row)
              = ExecuteRaises e).
Proof.
  induction rows as [|r rows IH]; intros executed.
  - left. exists []. reflexivity.
  - cbn [status_messages].
    destruct (pg_execute env executed (row_values str_upper site r)) as [s|e] eqn:Hex.
    + destruct (IH (executed ++ [row_values str_upper site r]))
        as [[ss Hss]|(pre & row & post & ss & e & -> & Hss & Hraise)].
      * left. exists (s :: ss). rewrite Hss. reflexivity.
      * right. exists (r :: pre), row, post, (s :: ss), e.
        cbn [app map status_messages]. rewrite Hex, Hss.
        rewrite <- app_assoc in Hraise. auto.
    + right. exists [], r, rows, [], e. cbn. rewrite app_nil_r. auto.
Qed.

(** The six ways a run on a non-empty input can go.  After a failed
    [execute] or [commit] the outcome depends on [rollback]. *)
Lemma load_cases (db_url : option string) (rows : list gsc_row) :
  rows <> [] ->
  (PyStr.truthy_opt db_url = false
   /\ load db_url rows
      = {| result := Returned 0 0 (error_msg not_configured); trace := [] |})
  \/ (exists dsn e,
         db_url = Some dsn /\ pg_connect env dsn = Raises e
         /\ load db_url rows
            = {| result := Returned 0 0 (error_msg e);
                 trace := [Connect dsn false] |})
  \/ (exists dsn e,
         db_url = Some dsn /\ pg_cursor env = Raises e
         /\ load db_url rows
            = {| result := Escapes cur_unbound;
                 trace := [Connect dsn true; Cursor false; Rollback] |})
  \/ (exists dsn pre row post ss e,
         db_url = Some dsn /\ rows = pre ++ row :: post
         /\ status_messages str_upper env site pre [] = Some ss
         /\ load db_url rows
            = {| result := after_rollback env (fst (tally ss (0, 0)))
                                          (snd (tally ss (0, 0))) e;
                 trace := [Connect dsn true; Cursor true]
                            ++ executed_ok str_upper site pre
                            ++ [Execute Sql.upsert_sql (values_of row) false;
                                Rollback; CursorClose; ConnClose] |})
  \/ (exists dsn ss e,
         db_url = Some dsn
         /\ status_messages str_upper env site rows [] = Some ss
         /\ load db_url rows
            = {| result := after_rollback env (fst (tally ss (0, 0)))
                                          (snd (tally ss (0, 0))) e;
                 trace := [Connect dsn true; Cursor true]
                            ++ executed_ok str_upper site rows
                            ++ [Commit false; Rollback; CursorClose;
                                ConnClose] |})
  \/ (exists dsn ss,
         db_url = Some dsn
         /\ status_messages str_upper env site rows [] = Some ss
         /\ load db_url rows
            = {| result := Returned (fst (tally ss (0, 0)))
                                    (snd (tally ss (0, 0)))
                                    (success_msg (fst (tally ss (0, 0)))
                                                 (snd (tally ss (0, 0))));
                 trace := [Connect dsn true; Cursor true]
                            ++ executed_ok str_upper site rows
                            ++ [Commit true; CursorClose; ConnClose] |}).
Proof.
  intros Hrows.
  assert (Hload : load db_url rows
                  = let l := try_block str_upper env site db_url rows in
                    finally_clause l (except_clause env l)).
  { unfold load_data_to_postgres. destruct rows; [congruence|reflexivity]. }
  rewrite Hload. clear Hload. unfold try_block.
  destruct db_url as [dsn|]; [|left; split; reflexivity].
  cbn [PyStr.truthy_opt].
  destruct (PyStr.truthy dsn) eqn:Hdsn; [|left; split; reflexivity].
  cbn [negb]. right.
  destruct (pg_connect env dsn) as [|e] eqn:Hc;
    [|left; exists dsn, e; repeat split; assumption || reflexivity].
  right.
  destruct (pg_cursor env) as [|e] eqn:Hk.
  2:{ left. exists dsn, e. repeat split; try assumption.
      unfold except_clause, finally_clause.
      cbn [raised conn cur calls].
      destruct (pg_rollback env); reflexivity. }
  right.
  destruct (status_messages_cases rows [])
    as [[ss Hss]|(pre & row & post & ss & e & -> & Hss & Hraise)].
  - right. rewrite (for_rows_completes str_upper env site rows [] (0, 0) _ ss Hss).
    cbn [app].
    destruct (pg_commit env (map (row_values str_upper site) rows)) as [|e] eqn:Hcommit.
    + right. exists dsn, ss. repeat split; try assumption.
      unfold except_clause, finally_clause.
      cbn [raised conn cur inserted_count updated_count calls].
      cbn [app]. rewrite <- !app_assoc. reflexivity.
    + left. exists dsn, ss, e. repeat split; try assumption.
      unfold except_clause, finally_clause, after_rollback.
      cbn [raised conn cur inserted_count updated_count calls].
      destruct (pg_rollback env); cbn [settle app];
        rewrite <- !app_assoc; reflexivity.
  - left. exists dsn, pre, row, post, ss, e. repeat split; try assumption.
    rewrite (for_rows_raises str_upper env site pre [] (0, 0) _ ss row post e Hss Hraise).
    cbv zeta. unfold except_clause, finally_clause, after_rollback.
    cbn [raised conn cur inserted_count updated_count calls].
    destruct (pg_rollback env); cbn [settle app];
      rewrite <- !app_assoc; reflexivity.
Qed.

Lemma commit_not_among_executes (rows : list gsc_row) (more : list pg_event) :
  In (Commit true) (executed_ok str_upper site rows ++ more) -> In (Commit true) more.
Proof.
  intros Hin. apply in_app_or in Hin as [Hin|Hin]; [|exact Hin].
  apply executed_ok_events in Hin as (row & _ & Heq). discriminate.
Qed.

Lemma rollback_not_among_executes (rows : list gsc_row) (more : list pg_event) :
  In Rollback (executed_ok str_upper site rows ++ more) -> In Rollback more.
Proof.
  intros Hin. apply in_app_or in Hin as [Hin|Hin]; [|exact Hin].
  apply executed_ok_events in Hin as (row & _ & Heq). discriminate.
Qed.

(** A run commits exactly in the last of the six cases. *)
Lemma load_commit_cases (db_url : option string) (rows : list gsc_row) :
  In (Commit true) (trace (load db_url rows)) ->
  exists dsn ss,
    db_url = Some dsn
    /\ status_messages str_upper env site rows [] = Some ss
    /\ load db_url rows
       = {| result := Returned (fst (tally ss (0, 0))) (snd (tally ss (0, 0)))
                               (success_msg (fst (tally ss (0, 0)))
                                            (snd (tally ss (0, 0))));
            trace := [Connect dsn true; Cursor true]
                       ++ executed_ok str_upper site rows
                       ++ [Commit true; CursorClose; ConnClose] |}.
Proof.
  intros Hin. destruct rows as [|r rows]; [destruct Hin|].
  destruct (load_cases db_url (r :: rows)) as
      [[_ Hrun]|[(dsn & e & _ & _ & Hrun)|[(dsn & e & _ & _ & Hrun)|
       [(dsn & pre & row & post & ss & e & _ & _ & _ & Hrun)|
        [(dsn & ss & e & _ & _ & Hrun)|(dsn & ss & Hurl & Hss & Hrun)]]]]];
    [discriminate| | | | | |eauto]; rewrite Hrun in Hin; cbn [trace] in Hin.
  - destruct Hin.
  - destruct Hin as [H|[]]. discriminate.
  - destruct Hin as [H|[H|[H|[]]]]; discriminate.
  - cbn [app] in Hin. destruct Hin as [H|[H|Hin]]; try discriminate.
    apply commit_not_among_executes in Hin.
    destruct Hin as [H|[H|[H|[H|[]]]]]; discriminate.
  - cbn [app] in Hin. destruct Hin as [H|[H|Hin]]; try discriminate.
    apply commit_not_among_executes in Hin.
    destruct Hin as [H|[H|[H|[H|[]]]]]; discriminate.
Qed.

(** The message of a run tells whether it committed. *)
Lemma load_message_cases (db_url : option string) (rows : list gsc_row)
      (i u : Z) (msg : string) :
  result (load db_url rows) = Returned i u msg ->
  (PyStr.contains "ERRO" msg = false
   /\ (rows = [] \/ In (Commit true) (trace (load db_url rows))))
  \/ (PyStr.contains "ERRO" msg = true
      /\ rows <> [] /\ ~ In (Commit true) (trace (load db_url rows))).
Proof.
  intros Hres. destruct rows as [|r rows].
  - cbn in Hres. injection Hres as <- <- <-. left. split; [reflexivity|auto].
  - destruct (load_cases db_url (r :: rows)) as
        [[_ Hrun]|[(dsn & e & _ & _ & Hrun)|[(dsn & e & _ & _ & Hrun)|
         [(dsn & pre & row & post & ss & e & _ & _ & _ & Hrun)|
          [(dsn & ss & e & _ & _ & Hrun)|(dsn & ss & Hurl & Hss & Hrun)]]]]];
      [discriminate| | | | | | ]; rewrite Hrun in *; cbn [result trace] in *.
    + injection Hres as <- <- <-.
      right. split; [apply error_msg_has_ERRO|]. split; [discriminate|].
      intros [].
    + injection Hres as <- <- <-.
      right. split; [apply error_msg_has_ERRO|]. split; [discriminate|].
      intros [H|[]]. discriminate.
    + discriminate.
    + unfold after_rollback in Hres.
      destruct (pg_rollback env); [|discriminate]. injection Hres as <- <- <-.
      right. split; [apply error_msg_has_ERRO|]. split; [discriminate|].
      cbn [app]. intros [H|[H|Hin]]; try discriminate.
      apply commit_not_among_executes in Hin.
      destruct Hin as [H|[H|[H|[H|[]]]]]; discriminate.
    + unfold after_rollback in Hres.
      destruct (pg_rollback env); [|discriminate]. injection Hres as <- <- <-.
      right. split; [apply error_msg_has_ERRO|]. split; [discriminate|].
      cbn [app]. intros [H|[H|Hin]]; try discriminate.
      apply commit_not_among_executes in Hin.
      destruct Hin as [H|[H|[H|[H|[]]]]]; discriminate.
    + injection Hres as <- <- <-.
      left. split; [apply success_msg_has_no_ERRO|]. right.
      cbn [app]. right. right. apply in_or_app. right. left. reflexivity.
Qed.

End LoaderCases.

Section LoaderExtras.
Import Load.
Variable str_upper : string -> string.
Variable env : pg_env.
Variable site : string.

Local Abbreviation values_of := (row_values str_upper site).
Local Abbreviation load := (load_data_to_postgres str_upper env site).

Lemma firstn_middle (pre post : list gsc_row) (row : gsc_row) :
  firstn (S (List.length pre)) (pre ++ row :: post) = pre ++ [row].
Proof.
  induction pre as [|r pre IH]; [reflexivity|].
  cbn [List.length app firstn] in *. rewrite IH. reflexivity.
Qed.

(** X8.  A run commits only after every row was executed, in input order,
    without an exception; such a run returns the summary message and never
    rolls back. *)
Theorem load_commits_only_after_all_rows (db_url : option string)
        (rows : list gsc_row) :
  In (Commit true) (trace (load db_url rows)) ->
  executed_values (trace (load db_url rows)) = map values_of rows
  /\ ~ In Rollback (trace (load db_url rows))
  /\ ~ In (Commit false) (trace (load db_url rows))
  /\ exists ss,
      status_messages str_upper env site rows [] = Some ss
      /\ result (load db_url rows)
         = Returned (fst (tally ss (0, 0))) (snd (tally ss (0, 0)))
                    (success_msg (fst (tally ss (0, 0)))
                                 (snd (tally ss (0, 0)))).
Proof.
  intros Hin.
  destruct (load_commit_cases str_upper env site db_url rows Hin)
    as (dsn & ss & _ & Hss & Hrun).
  rewrite Hrun. cbn [trace result]. split; [|split; [|split]].
  - cbn [app executed_values]. rewrite executed_values_app, executed_values_ok.
    cbn [executed_values]. apply app_nil_r.
  - cbn [app]. intros [H|[H|H]]; try discriminate.
    apply in_app_or in H as [H|[H|[H|[H|[]]]]]; try discriminate.
    apply executed_ok_events in H as (row & _ & Heq). discriminate.
  - cbn [app]. intros [H|[H|H]]; try discriminate.
    apply in_app_or in H as [H|[H|[H|[H|[]]]]]; try discriminate.
    apply executed_ok_events in H as (row & _ & Heq). discriminate.
  - exists ss. split; [exact Hss|reflexivity].
Qed.

(** X9.  Whatever the store does, the tuples handed to [execute] are those
    of a prefix of the input, in input order, one per row; each carries the
    site passed to the function and the search type ["WEB"]. *)
Theorem load_executes_rows_in_order (db_url : option string)
        (rows : list gsc_row) :
  exists n,
    (n <= List.length rows)%nat
    /\ executed_values (trace (load db_url rows))
       = map values_of (firstn n rows)
    /\ Forall (fun v => v_site_url v = site /\ v_search_type v = "WEB")
              (executed_values (trace (load db_url rows))).
Proof.
  assert (Hstamp : forall l,
             Forall (fun v => v_site_url v = site /\ v_search_type v = "WEB")
                    (map values_of l)).
  { intros l. apply Forall_forall. intros v Hv.
    apply in_map_iff in Hv as (row & <- & _). split; reflexivity. }
  assert (Hex : exists n,
             (n <= List.length rows)%nat
             /\ executed_values (trace (load db_url rows))
                = map values_of (firstn n rows)).
  { destruct rows as [|r rows]; [exists O; split; [cbn; lia|reflexivity]|].
    destruct (load_cases str_upper env site db_url (r :: rows)) as
        [[_ Hrun]|[(dsn & e & _ & _ & Hrun)|[(dsn & e & _ & _ & Hrun)|
         [(dsn & pre & row & post & ss & e & _ & Hsplit & _ & Hrun)|
          [(dsn & ss & e & _ & _ & Hrun)|(dsn & ss & _ & _ & Hrun)]]]]];
      [discriminate| | | | | | ]; rewrite Hrun; cbn [trace].
    - exists O. split; [cbn; lia|reflexivity].
    - exists O. split; [cbn; lia|reflexivity].
    - exists O. split; [cbn; lia|reflexivity].
    - exists (S (List.length pre)). rewrite Hsplit. split.
      + rewrite length_app. cbn. lia.
      + rewrite firstn_middle. cbn [app executed_values].
        rewrite executed_values_app, executed_values_ok, map_app. reflexivity.
    - exists (List.length (r :: rows)). split; [lia|].
      rewrite firstn_all. cbn [app executed_values].
      rewrite executed_values_app, executed_values_ok. cbn [executed_values].
      apply app_nil_r.
    - exists (List.length (r :: rows)). split; [lia|].
      rewrite firstn_all. cbn [app executed_values].
      rewrite executed_values_app, executed_values_ok. cbn [executed_values].
      apply app_nil_r. }
  destruct Hex as (n & Hn & Heq). exists n. rewrite Heq. auto.
Qed.

(** X10.  The returned message holds ["ERRO"] exactly when the run had rows
    to load and did not commit: the test the caller applies to the message
    separates the runs that committed (or had nothing to do) from the
    others. *)
Theorem load_message_tells_commit (db_url : option string)
        (rows : list gsc_row) (i u : Z) (msg : string) :
  result (load db_url rows) = Returned i u msg ->
  (PyStr.contains "ERRO" msg = false
   <-> (rows = [] \/ In (Commit true) (trace (load db_url rows)))).
Proof.
  intros Hres.
  destruct (load_message_cases str_upper env site db_url rows i u msg Hres)
    as [[Hno Hok]|(Hyes & Hne & Hnc)].
  - split; auto.
  - split.
    + intros Hno. rewrite Hno in Hyes. discriminate.
    + intros [Hnil|Hc]; [contradiction|contradiction].
Qed.

(** When the function returns, its counters are within bounds. *)
Lemma load_returned_counts (db_url : option string) (rows : list gsc_row)
      (i u : Z) (msg : string) :
  result (load db_url rows) = Returned i u msg ->
  0 <= i /\ 0 <= u /\ i + u <= Z.of_nat (List.length rows).
Proof.
  intros Hres. unfold load_data_to_postgres in Hres.
  destruct rows as [|row rows].
  - cbn in Hres. injection Hres as <- <- _. cbn. lia.
  - destruct (try_block_locals str_upper env site db_url (row :: rows)) as (Hb & _ & _).
    cbv zeta in Hb.
    set (l := try_block str_upper env site db_url (row :: rows)) in *.
    unfold finally_clause, except_clause in Hres.
    destruct (raised l), (conn l), (cur l), (pg_rollback env); cbn in Hres;
      try discriminate; injection Hres as <- <- _; exact Hb.
Qed.

(** A run that touched the store began by connecting with the given
    connection string, on a non-empty input. *)
Lemma load_trace_starts_with_connect (db_url : option string)
      (rows : list gsc_row) :
  trace (load db_url rows) <> [] ->
  rows <> []
  /\ exists dsn ok rest,
      db_url = Some dsn /\ PyStr.truthy dsn = true
      /\ trace (load db_url rows) = Connect dsn ok :: rest.
Proof.
  intros Hne. destruct rows as [|r rows]; [contradiction Hne; reflexivity|].
  split; [discriminate|].
  unfold load_data_to_postgres, try_block in *.
  destruct db_url as [dsn|]; [|contradiction Hne; reflexivity].
  destruct (PyStr.truthy dsn) eqn:Hdsn; [|contradiction Hne; reflexivity].
  cbn [negb] in *. exists dsn.
  destruct (pg_connect env dsn); [|cbn; eauto].
  destruct (pg_cursor env).
  2:{ unfold except_clause, finally_clause. cbn [raised conn cur Load.calls].
      destruct (pg_rollback env); cbn; eauto. }
  destruct (for_rows_calls str_upper env site (r :: rows) [] (0, 0)
              [Connect dsn true; Cursor true]) as (added & Hcalls & _).
  destruct (for_rows str_upper env site (r :: rows) [] (0, 0)
              [Connect dsn true; Cursor true])
    as [[[counts executed] calls] exn].
  cbn [fst snd] in Hcalls. subst calls.
  destruct exn; [|destruct (pg_commit env executed)];
    unfold except_clause, finally_clause;
    cbn [raised conn cur inserted_count updated_count Load.calls];
    destruct (pg_rollback env); cbn [trace app];
    eauto.
Qed.

End LoaderExtras.

(** ** The trigger: every run *)

Section TriggerRuns.
Import Fetch Load Trigger.
Variable py_int : string -> option Z.
Variable strftime_ymd : Z -> string.
Variable str_upper : string -> string.

Local Abbreviation days_of := (days_param py_int).
Local Abbreviation trigger := (trigger_gsc_sync py_int strftime_ymd str_upper).
Local Abbreviation target_str :=
  (fun (w : world) (a : query_args) => strftime_ymd (today w - days_of a)).

(** A run that got as far as fetching: the configuration, the client and the
    target date it went through. *)
Lemma trigger_reaches_fetch (w : world) (fuel : nat) (a : query_args) :
  gsc_sent (trigger w fuel a) <> [] \/ store_calls (trigger w fuel a) <> []
  \/ (exists body, response (trigger w fuel a) = Some (Jsonify body 200)) ->
  exists svc,
    PyStr.truthy_opt (DATABASE_URL w) = true
    /\ google w GCP_KEY_PATH GSC_SCOPES = Built svc
    /\ date_minus_days (today w) (days_of a) = Some (today w - days_of a)
    /\ trigger w fuel a
       = let f := fetch_gsc_data svc GSC_SITE_URL (target_str w a)
                                 (target_str w a) fuel in
         match returned f with
         | None => {| response := None;
                      gsc_sent := requests f; store_calls := [] |}
         | Some (None, fetch_error) =>
             {| response := Some (Jsonify
                  [("status", JStr "error");
                   ("message", JStr ("GSC Fetch Failed: " ++ fmt fetch_error)%string)]
                  500);
                gsc_sent := requests f; store_calls := [] |}
         | Some (Some gsc_rows, _) =>
             let l := load_data_to_postgres str_upper (store w) GSC_SITE_URL
                                            (DATABASE_URL w) gsc_rows in
             match result l with
             | Escapes exn =>
                 {| response := Some (Unhandled exn);
                    gsc_sent := requests f; store_calls := trace l |}
             | Returned inserted updated load_message =>
                 if PyStr.contains "ERRO" load_message then
                   {| response := Some (Jsonify
                        [("status", JStr "error");
                         ("message", JStr ("PostgreSQL Load Failed: " ++ load_message)%string);
                         ("inserted", JInt inserted);
                         ("updated", JInt updated)] 500);
                      gsc_sent := requests f; store_calls := trace l |}
                 else
                   {| response := Some (Jsonify
                        [("status", JStr "success");
                         ("message", JStr load_message);
                         ("date_processed", JStr (target_str w a));
                         ("rows_found", JInt (Z.of_nat (List.length gsc_rows)));
                         ("inserted", JInt inserted);
                         ("updated", JInt updated)] 200);
                      gsc_sent := requests f; store_calls := trace l |}
             end
         end.
Proof.
  unfold trigger_gsc_sync, authenticate_gsc.
  destruct (PyStr.truthy_opt (DATABASE_URL w)); cbn [negb].
  2:{ intros [H|[H|[b H]]]; cbn in H; congruence. }
  destruct (google w GCP_KEY_PATH GSC_SCOPES) as [svc| |e].
  2:{ intros [H|[H|[b H]]]; cbn in H; congruence. }
  2:{ intros [H|[H|[b H]]]; cbn in H; congruence. }
  destruct (date_minus_days (today w) (days_of a)) as [target|] eqn:Ht.
  2:{ intros [H|[H|[b H]]]; cbn in H; congruence. }
  intros _. exists svc.
  apply date_minus_days_is_subtraction in Ht. subst target.
  repeat split.
Qed.

Lemma date_minus_days_in_range (d days : Z) :
  Z.abs days <= MAX_DELTA_DAYS ->
  0 < d - days <= MAXORDINAL ->
  date_minus_days d days = Some (d - days).
Proof.
  intros Hdays [Hlo Hhi]. unfold date_minus_days.
  destruct (Z.leb_spec (Z.abs days) MAX_DELTA_DAYS); [|lia].
  destruct (Z.ltb_spec 0 (d - days)); [|lia].
  destruct (Z.leb_spec (d - days) MAXORDINAL); [reflexivity|lia].
Qed.

(** Once the configuration, the client and the date are there, the handler
    sends what the fetch sends, and the fetch begins at offset 0. *)
Lemma trigger_sends_first_request (w : world) (fuel : nat) (a : query_args)
      (svc : gsc_service) :
  PyStr.truthy_opt (DATABASE_URL w) = true ->
  google w GCP_KEY_PATH GSC_SCOPES = Built svc ->
  date_minus_days (today w) (days_of a) = Some (today w - days_of a) ->
  (0 < fuel)%nat ->
  exists rest,
    gsc_sent (trigger w fuel a)
    = nth_body (target_str w a) (target_str w a) 0 :: rest.
Proof.
  intros Hdb Hsvc Hdate Hfuel.
  unfold trigger_gsc_sync, authenticate_gsc. rewrite Hdb, Hsvc, Hdate.
  cbn [negb]. cbv zeta.
  set (d := strftime_ymd (today w - days_of a)).
  set (f := fetch_gsc_data svc GSC_SITE_URL d d fuel).
  assert (Hreq : exists rest, requests f = nth_body d d 0 :: rest).
  { unfold f. rewrite fetch_is_loop.
    destruct (loop_requests_offsets svc GSC_SITE_URL d d fuel [] O 0 [])
      as (n & _ & Hpos & ->).
    destruct n as [|n]; [specialize (Hpos Hfuel); lia|].
    cbn [app seq map]. eauto. }
  destruct (returned f) as [[[rows|] err]|]; try exact Hreq.
  destruct (result _); [destruct (PyStr.contains _ _)|]; exact Hreq.
Qed.

(** C2.  Given that [int('2')] is 2:
    - the number of days is the integer [int] reads from the first [days]
      value of the query string;
    - when the query string has no [days], or [int] rejects its value, the
      number of days is 2 and the run is the very run of a request with
      [days=2], so the parameter alone never leads to an error response;
    - every request the fetch sends carries, as start date and as end
      date, the formatted date [today - days];
    - and when the store is configured, the client is built and
      [today - days] is a date, the fetch is called and its first request
      carries that date. *)
Theorem trigger_days_and_dates :
  py_int "2" = Some 2 ->
  (forall pre s post n,
      args_has pre "days" = false ->
      py_int s = Some n ->
      days_param py_int (pre ++ ("days", s) :: post) = n)
  /\ (forall a,
         args_has a "days" = false \/ py_int (args_get a "days" "2") = None ->
         days_param py_int a = 2
         /\ forall w fuel,
             trigger_gsc_sync py_int strftime_ymd str_upper w fuel a
             = trigger_gsc_sync py_int strftime_ymd str_upper w fuel
                                [("days", "2")])
  /\ (forall w fuel a b,
         In b (gsc_sent (trigger_gsc_sync py_int strftime_ymd str_upper
                                          w fuel a)) ->
         startDate b = strftime_ymd (today w - days_param py_int a)
         /\ endDate b = strftime_ymd (today w - days_param py_int a))
  /\ (forall w fuel a svc,
         PyStr.truthy_opt (DATABASE_URL w) = true ->
         google w GCP_KEY_PATH GSC_SCOPES = Built svc ->
         Z.abs (days_param py_int a) <= MAX_DELTA_DAYS ->
         0 < today w - days_param py_int a <= MAXORDINAL ->
         (0 < fuel)%nat ->
         exists rest,
           gsc_sent (trigger_gsc_sync py_int strftime_ymd str_upper w fuel a)
           = nth_body (strftime_ymd (today w - days_param py_int a))
                      (strftime_ymd (today w - days_param py_int a)) 0
             :: rest).
Proof.
  intros Htwo.
  assert (Hdefault : days_of [("days", "2")] = 2).
  { unfold days_param. cbn. rewrite Htwo. reflexivity. }
  split; [|split; [|split]].
  - intros pre s post n Hpre Hs. unfold days_param.
    rewrite (args_get_first pre post "days" s "2" Hpre), Hs. reflexivity.
  - intros a Ha.
    assert (Hd : days_of a = 2).
    { unfold days_param. destruct Ha as [Habs|Hbad].
      - rewrite (args_get_absent a "days" "2" Habs), Htwo. reflexivity.
      - rewrite Hbad. reflexivity. }
    split; [exact Hd|]. intros w fuel.
    apply trigger_depends_on_days. congruence.
  - intros w fuel a b Hin.
    destruct (trigger_reaches_fetch w fuel a) as (svc & _ & _ & _ & Hrun).
    { left. intros Hnil. rewrite Hnil in Hin. destruct Hin. }
    rewrite Hrun in Hin. clear Hrun. cbv zeta in Hin.
    set (d := strftime_ymd (today w - days_of a)) in *.
    set (f := fetch_gsc_data svc GSC_SITE_URL d d fuel) in *.
    assert (Hf : In b (requests f)).
    { destruct (returned f) as [[[rows|] err]|]; try exact Hin.
      destruct (result _); [destruct (PyStr.contains _ _)|]; exact Hin. }
    apply (fetch_loop_dates svc GSC_SITE_URL d d fuel [] 0 0 [] b);
      [intros b' []|exact Hf].
  - intros w fuel a svc Hdb Hsvc Hdays Hrange Hfuel.
    apply (trigger_sends_first_request w fuel a svc Hdb Hsvc); [|exact Hfuel].
    apply date_minus_days_in_range; assumption.
Qed.

(** X11.  A [200] response means the work was done: the fetch returned rows
    without error, the body reports their number and the date [today - days],
    the two counters are nonnegative with a sum of at most that number, and
    either there were no rows and the store was not contacted, or the
    transaction was committed. *)
Theorem trigger_success_means_committed (w : world) (fuel : nat)
        (a : query_args) (body : list (string * json)) :
  response (trigger_gsc_sync py_int strftime_ymd str_upper w fuel a)
  = Some (Jsonify body 200) ->
  exists svc rows i u msg,
    google w GCP_KEY_PATH GSC_SCOPES = Built svc
    /\ returned (fetch_gsc_data svc GSC_SITE_URL (target_str w a)
                                (target_str w a) fuel)
       = Some (Some rows, None)
    /\ body = [("status", JStr "success"); ("message", JStr msg);
               ("date_processed", JStr (target_str w a));
               ("rows_found", JInt (Z.of_nat (List.length rows)));
               ("inserted", JInt i); ("updated", JInt u)]
    /\ 0 <= i /\ 0 <= u /\ i + u <= Z.of_nat (List.length rows)
    /\ ((rows = []
         /\ store_calls (trigger_gsc_sync py_int strftime_ymd str_upper w fuel a) = [])
        \/ In (Commit true)
              (store_calls (trigger_gsc_sync py_int strftime_ymd str_upper w fuel a))).
Proof.
  intros Hresp.
  destruct (trigger_reaches_fetch w fuel a) as (svc & _ & Hsvc & _ & Hrun);
    [right; right; eauto|].
  rewrite Hrun in *. clear Hrun. cbv zeta in *.
  set (f := fetch_gsc_data svc GSC_SITE_URL _ _ fuel) in *.
  destruct (returned f) as [[[rows|] err]|] eqn:Hret; try discriminate.
  assert (Herr : err = None).
  { unfold f in Hret. rewrite fetch_is_loop in Hret.
    apply (loop_returns_rows svc GSC_SITE_URL _ _ fuel [] O 0 [] rows err Hret). }
  subst err.
  set (l := load_data_to_postgres str_upper (store w) GSC_SITE_URL (DATABASE_URL w) rows)
    in *.
  destruct (result l) as [i u msg|exn] eqn:Hres; [|discriminate].
  destruct (PyStr.contains "ERRO" msg) eqn:Hmsg; [discriminate|].
  cbn [response store_calls] in *. injection Hresp as <-.
  exists svc, rows, i, u, msg.
  pose proof (load_returned_counts _ _ _ _ _ _ _ _ Hres) as Hb.
  destruct (load_message_cases _ _ _ _ _ _ _ _ Hres)
    as [[_ Hok]|[Hyes _]]; [|fold l in Hyes; congruence].
  repeat split; try tauto.
  destruct Hok as [->|Hc]; [left|right; exact Hc].
  split; reflexivity.
Qed.

(** X12.  Every JSON response has status code [200] or [500], and a [500]
    body says ["error"].  A run that answers anything but a [200] -- a
    [500], an exception that leaves the handler, or no answer yet -- has
    committed nothing. *)
Theorem trigger_failure_commits_nothing (w : world) (fuel : nat)
        (a : query_args) :
  match response (trigger_gsc_sync py_int strftime_ymd str_upper w fuel a) with
  | Some (Jsonify body code) =>
      code = 200
      \/ (code = 500 /\ In ("status", JStr "error") body
          /\ ~ In (Commit true)
                  (store_calls (trigger_gsc_sync py_int strftime_ymd str_upper w fuel a)))
  | Some (Unhandled _) | None =>
      ~ In (Commit true)
           (store_calls (trigger_gsc_sync py_int strftime_ymd str_upper w fuel a))
  end.
Proof.
  destruct (store_calls (trigger w fuel a)) as [|ev evs] eqn:Hcalls.
  - unfold trigger_gsc_sync, authenticate_gsc in *.
    destruct (negb _); [right; cbn; auto|].
    destruct (google w GCP_KEY_PATH GSC_SCOPES) as [svc| |e];
      try (right; cbn; auto).
    destruct (date_minus_days _ _); [|cbn; auto].
    destruct (returned _) as [[[rows|] err]|]; try (cbn; auto).
    destruct (result _) as [i u msg|exn]; [|cbn; auto].
    destruct (PyStr.contains "ERRO" msg); cbn; auto.
  - destruct (trigger_reaches_fetch w fuel a) as (svc & _ & _ & _ & Hrun);
      [right; left; congruence|].
    rewrite <- Hcalls. rewrite Hrun. clear Hrun Hcalls. cbv zeta.
    destruct (returned _) as [[[rows|] err]|]; try (cbn; auto).
    set (l := load_data_to_postgres str_upper (store w) GSC_SITE_URL (DATABASE_URL w) rows).
    destruct (result l) as [i u msg|exn] eqn:Hres.
    + destruct (load_message_cases _ _ _ _ _ _ _ _ Hres)
        as [[Hno _]|(Hyes & _ & Hnc)].
      * rewrite Hno. left. reflexivity.
      * rewrite Hyes. right. cbn. auto.
    + cbn [response store_calls]. intros Hc.
      destruct (load_commit_cases _ _ _ _ _ Hc) as (dsn & ss & _ & _ & Hrun).
      fold l in Hrun. rewrite Hrun in Hres. discriminate.
Qed.

(** X13.  If a request to the Search Console raised, the handler answers
    [500] with the fetch error message and the store is not contacted. *)
Theorem trigger_fetch_failure_skips_store (w : world) (fuel : nat)
        (a : query_args) (svc : gsc_service) (b : request_body)
        (msg : string) :
  google w GCP_KEY_PATH GSC_SCOPES = Built svc ->
  In b (gsc_sent (trigger_gsc_sync py_int strftime_ymd str_upper w fuel a)) ->
  reply_error (svc GSC_SITE_URL b) = Some msg ->
  response (trigger_gsc_sync py_int strftime_ymd str_upper w fuel a)
  = Some (Jsonify [("status", JStr "error");
                   ("message", JStr ("GSC Fetch Failed: " ++ msg)%string)] 500)
  /\ store_calls (trigger_gsc_sync py_int strftime_ymd str_upper w fuel a) = [].
Proof.
  intros Hsvc Hin Herr.
  destruct (trigger_reaches_fetch w fuel a) as (svc' & _ & Hsvc' & _ & Hrun).
  { left. intros Hnil. rewrite Hnil in Hin. destruct Hin. }
  assert (svc' = svc) by congruence. subst svc'.
  rewrite Hrun in *. clear Hrun. cbv zeta in *.
  set (f := fetch_gsc_data svc GSC_SITE_URL _ _ fuel) in *.
  assert (Hf : In b (requests f)).
  { destruct (returned f) as [[[rows|] err]|]; try exact Hin.
    destruct (result _); [destruct (PyStr.contains _ _)|]; exact Hin. }
  assert (Hret : returned f = Some (None, Some msg)).
  { apply (loop_error_is_last svc GSC_SITE_URL (target_str w a)
             (target_str w a) fuel [] 0 0 [] b msg);
      [intros b' []|exact Hf|exact Herr]. }
  rewrite Hret. split; reflexivity.
Qed.

(** X14.  When the first response holds no rows, the handler answers [200]
    with zero rows found, inserted and updated, after one request and
    without contacting the store. *)
Theorem trigger_nothing_to_load (w : world) (fuel : nat) (a : query_args)
        (svc : gsc_service) (rows : option (list gsc_row)) :
  PyStr.truthy_opt (DATABASE_URL w) = true ->
  google w GCP_KEY_PATH GSC_SCOPES = Built svc ->
  date_minus_days (today w) (days_param py_int a)
  = Some (today w - days_param py_int a) ->
  svc GSC_SITE_URL (nth_body (target_str w a) (target_str w a) 0)
  = Response rows ->
  rows_of rows = [] ->
  (0 < fuel)%nat ->
  trigger_gsc_sync py_int strftime_ymd str_upper w fuel a
  = {| response := Some (Jsonify
         [("status", JStr "success");
          ("message", JStr no_data_msg);
          ("date_processed", JStr (target_str w a));
          ("rows_found", JInt 0);
          ("inserted", JInt 0); ("updated", JInt 0)] 200);
       gsc_sent := [nth_body (target_str w a) (target_str w a) 0];
       store_calls := [] |}.
Proof.
  intros Hdb Hsvc Hdate Hreply Hrows Hfuel.
  unfold trigger_gsc_sync, authenticate_gsc. rewrite Hdb, Hsvc, Hdate.
  cbn [negb]. destruct fuel as [|fuel]; [lia|].
  unfold fetch_gsc_data. cbn [fetch_loop].
  change (mk_body ?d1 ?d2 0) with (nth_body d1 d2 0).
  rewrite Hreply, Hrows. reflexivity.
Qed.

(** X15.  The store is contacted only after a fetch that returned at least
    one row, and the first call is [connect] with the configured connection
    string. *)
Theorem trigger_store_needs_rows (w : world) (fuel : nat) (a : query_args) :
  store_calls (trigger_gsc_sync py_int strftime_ymd str_upper w fuel a) <> [] ->
  exists svc rows dsn ok rest,
    google w GCP_KEY_PATH GSC_SCOPES = Built svc
    /\ returned (fetch_gsc_data svc GSC_SITE_URL (target_str w a)
                                (target_str w a) fuel)
       = Some (Some rows, None)
    /\ rows <> []
    /\ DATABASE_URL w = Some dsn
    /\ store_calls (trigger_gsc_sync py_int strftime_ymd str_upper w fuel a)
       = Connect dsn ok :: rest.
Proof.
  intros Hne.
  destruct (trigger_reaches_fetch w fuel a) as (svc & _ & Hsvc & _ & Hrun);
    [right; left; exact Hne|].
  rewrite Hrun in *. clear Hrun. cbv zeta in *.
  set (f := fetch_gsc_data svc GSC_SITE_URL _ _ fuel) in *.
  destruct (returned f) as [[[rows|] err]|] eqn:Hret;
    try (contradiction Hne; reflexivity).
  assert (Herr : err = None).
  { unfold f in Hret. rewrite fetch_is_loop in Hret.
    apply (loop_returns_rows svc GSC_SITE_URL _ _ fuel [] O 0 [] rows err Hret). }
  subst err.
  set (l := load_data_to_postgres str_upper (store w) GSC_SITE_URL (DATABASE_URL w) rows)
    in *.
  assert (Hl : trace l <> []).
  { destruct (result l); [destruct (PyStr.contains _ _)|]; exact Hne. }
  destruct (load_trace_starts_with_connect _ _ _ _ _ Hl)
    as (Hrows & dsn & ok & rest & Hurl & _ & Htrace).
  exists svc, rows, dsn, ok, rest. fold l in Htrace.
  repeat split; try assumption.
  destruct (result l); [destruct (PyStr.contains _ _)|]; exact Htrace.
Qed.

(** X16.  A [days] value for which [today - days] is not a date, or which is
    no valid [timedelta], makes the subtraction raise [OverflowError]; the
    exception is not caught, and neither the Search Console nor the store is
    contacted. *)
Theorem trigger_date_out_of_range (w : world) (fuel : nat) (a : query_args)
        (svc : gsc_service) :
  PyStr.truthy_opt (DATABASE_URL w) = true ->
  google w GCP_KEY_PATH GSC_SCOPES = Built svc ->
  today w - days_param py_int a <= 0
  \/ MAXORDINAL < today w - days_param py_int a
  \/ MAX_DELTA_DAYS < Z.abs (days_param py_int a) ->
  trigger_gsc_sync py_int strftime_ymd str_upper w fuel a
  = {| response := Some (Unhandled "OverflowError");
       gsc_sent := []; store_calls := [] |}.
Proof.
  intros Hdb Hsvc Hrange.
  unfold trigger_gsc_sync, authenticate_gsc. rewrite Hdb, Hsvc. cbn [negb].
  unfold date_minus_days.
  destruct (Z.leb_spec (Z.abs (days_of a)) MAX_DELTA_DAYS) as [Hd|Hd];
    [|reflexivity].
  destruct (Z.ltb_spec 0 (today w - days_of a)) as [Hlo|Hlo];
    [|reflexivity].
  destruct (Z.leb_spec (today w - days_of a) MAXORDINAL) as [Hhi|Hhi];
    [lia|reflexivity].
Qed.

(** X17.  [authenticate_gsc] returns a handle and no message when the client
    is built, and no handle and a message holding ["ERRO"] otherwise; for a
    missing key file the message names the path.  In the second case the
    handler answers [500] with that message and contacts neither the Search
    Console nor the store. *)
Theorem trigger_authentication_failure (w : world) (fuel : nat)
        (a : query_args) :
  PyStr.truthy_opt (DATABASE_URL w) = true ->
  match google w GCP_KEY_PATH GSC_SCOPES with
  | Built svc =>
      authenticate_gsc (google w) GCP_KEY_PATH GSC_SCOPES = (Some svc, None)
  | reply =>
      exists msg,
        authenticate_gsc (google w) GCP_KEY_PATH GSC_SCOPES = (None, Some msg)
        /\ PyStr.contains "ERRO" msg = true
        /\ (reply = RaisesFileNotFoundError ->
            PyStr.contains GCP_KEY_PATH msg = true)
        /\ trigger_gsc_sync py_int strftime_ymd str_upper w fuel a
           = {| response := Some (Jsonify
                  [("status", JStr "error");
                   ("message",
                    JStr ("GSC Authentication Failed: " ++ msg)%string)] 500);
                gsc_sent := []; store_calls := [] |}
  end.
Proof.
  intros Hdb. unfold trigger_gsc_sync, authenticate_gsc. rewrite Hdb.
  cbn [negb].
  destruct (google w GCP_KEY_PATH GSC_SCOPES) as [svc| |e]; [reflexivity| |].
  - eexists. split; [reflexivity|]. split; [reflexivity|].
    split; [intros _; vm_compute; reflexivity|reflexivity].
  - eexists. split; [reflexivity|]. split; [reflexivity|].
    split; [discriminate|reflexivity].
Qed.

End TriggerRuns.

(** ** The upsert statement on a table *)

Section UpsertProperties.
Import Sql Pg.
Variable def : table_def.

(** Where the statement writes: the first conflicting row is replaced, or,
    when no row conflicts, the proposed row is put after all others. *)
Lemma exec_upsert_shape now stmt ps (tbl : list tuple) :
  let '(tbl', written, conflict) := exec_upsert def now stmt ps tbl in
  if conflict
  then exists pre t post,
      tbl = pre ++ t :: post /\ tbl' = pre ++ written :: post
      /\ written = updated def now stmt ps t
      /\ conflicts def now stmt ps t = true
      /\ Forall (fun x => conflicts def now stmt ps x = false) pre
  else tbl' = tbl ++ [written]
       /\ written = proposed def now stmt ps
       /\ Forall (fun x => conflicts def now stmt ps x = false) tbl.
Proof.
  induction tbl as [|t tbl IH]; cbn [exec_upsert].
  - repeat split. constructor.
  - destruct (conflicts def now stmt ps t) eqn:Hc.
    + exists [], t, tbl. repeat split; auto.
    + destruct (exec_upsert def now stmt ps tbl) as [[tbl' w] b].
      destruct b.
      * destruct IH as (pre & t' & post & -> & -> & -> & Hc' & Hpre).
        exists (t :: pre), t', post. repeat split; auto.
      * destruct IH as (-> & -> & Hall). repeat split; auto.
Qed.

(** [DO UPDATE SET] leaves the columns of the conflict target alone. *)
Lemma updated_keeps_key now ps (t : tuple) (c : column) :
  In c (on_conflict upsert_sql) ->
  updated def now upsert_sql ps t c = t c.
Proof.
  intros Hin. destruct c; try reflexivity; cbn in Hin;
    exfalso; intuition discriminate.
Qed.



(** A row with a date proposes a key without [NULL]: it conflicts with
    itself. *)
Lemma proposed_conflicts_with_itself now (v : Load.upsert_values) (d : string) :
  Load.v_data v = Some d ->
  conflicts def now upsert_sql (params v)
            (proposed def now upsert_sql (params v)) = true.
Proof.
  intros Hd. unfold conflicts. cbn. rewrite Hd. cbn.
  rewrite !String.eqb_refl. reflexivity.
Qed.

(** A table holding a conflicting row sends the statement down the conflict
    path. *)
Lemma exec_upsert_finds_conflict now stmt ps (tbl : list tuple) (x : tuple) :
  In x tbl -> conflicts def now stmt ps x = true ->
  snd (exec_upsert def now stmt ps tbl) = true.
Proof.
  intros Hin Hx.
  pose proof (exec_upsert_shape now stmt ps tbl) as Hs.
  destruct (exec_upsert def now stmt ps tbl) as [[tbl' w] b].
  destruct b; [reflexivity|].
  destruct Hs as (_ & _ & Hall). rewrite Forall_forall in Hall.
  rewrite (Hall x Hin) in Hx. discriminate.
Qed.

(** X18.  The row the statement writes carries the four metrics of the new
    tuple, on the insert path and on the conflict path alike; on the
    conflict path it keeps the six key columns of the stored row, which
    equal the proposed ones. *)
Theorem upsert_overwrites_metrics (now : Z) (v : Load.upsert_values)
        (tbl : list tuple) :
  let '(tbl', written, conflict) :=
    exec_upsert def now upsert_sql (params v) tbl in
  In written tbl'
  /\ written clicks = Integer (Load.v_clicks v)
  /\ written impressions = Integer (Load.v_impressions v)
  /\ written ctr = Numeric (Load.v_ctr v)
  /\ written position = Numeric (Load.v_position v)
  /\ (conflict = true ->
      exists stored,
        In stored tbl
        /\ same_key upsert_sql stored
                    (proposed def now upsert_sql (params v)) = true
        /\ forall c, In c (on_conflict upsert_sql) -> written c = stored c).
Proof.
  pose proof (exec_upsert_shape now upsert_sql (params v) tbl) as Hs.
  destruct (exec_upsert def now upsert_sql (params v) tbl) as [[tbl' w] b].
  destruct b.
  - destruct Hs as (pre & t & post & -> & -> & -> & Hc & _).
    repeat split; try reflexivity.
    + apply in_or_app. right. left. reflexivity.
    + intros _. exists t. split; [apply in_or_app; right; left; reflexivity|].
      split; [exact Hc|]. intros c Hin. apply updated_keeps_key. exact Hin.
  - destruct Hs as (-> & -> & _).
    repeat split; try reflexivity.
    + apply in_or_app. right. left. reflexivity.
    + discriminate.
Qed.

(** X20.  Loading a key a second time updates: after a tuple with a date
    has been upserted, a tuple with the same six dimensions and any metrics
    takes the conflict path, the table keeps its size, and the row written
    has the second tuple's metrics and the time of the second load. *)
Theorem upsert_second_load_updates (now now' : Z) (v : Load.upsert_values)
        (d : string) (clicks' impressions' : Z) (ctr' position' : Q)
        (tbl : list tuple) :
  Load.v_data v = Some d ->
  let v' := {| Load.v_data := Load.v_data v;
               Load.v_site_url := Load.v_site_url v;
               Load.v_page := Load.v_page v;
               Load.v_query := Load.v_query v;
               Load.v_device := Load.v_device v;
               Load.v_search_type := Load.v_search_type v;
               Load.v_clicks := clicks';
               Load.v_impressions := impressions';
               Load.v_ctr := ctr';
               Load.v_position := position' |} in
  let '(tbl1, _, _) := exec_upsert def now upsert_sql (params v) tbl in
  let '(tbl2, written, conflict) :=
    exec_upsert def now' upsert_sql (params v') tbl1 in
  conflict = true
  /\ List.length tbl2 = List.length tbl1
  /\ written clicks = Integer clicks'
  /\ written impressions = Integer impressions'
  /\ written ctr = Numeric ctr'
  /\ written position = Numeric position'
  /\ written data_extracao = Timestamp now'.
Proof.
  intros Hd v'.
  pose proof (exec_upsert_shape now upsert_sql (params v) tbl) as Hs1.
  destruct (exec_upsert def now upsert_sql (params v) tbl) as [[tbl1 w1] b1].
  assert (Hw1 : In w1 tbl1
                /\ conflicts def now' upsert_sql (params v') w1 = true).
  { destruct b1.
    - destruct Hs1 as (pre & t & post & _ & -> & -> & Hc & _).
      split; [apply in_or_app; right; left; reflexivity|exact Hc].
    - destruct Hs1 as (-> & -> & _).
      split; [apply in_or_app; right; left; reflexivity|].
      apply (proposed_conflicts_with_itself now v d Hd). }
  destruct Hw1 as [Hin Hc].
  pose proof (exec_upsert_finds_conflict now' upsert_sql (params v') tbl1 w1
                Hin Hc) as Hb2.
  pose proof (exec_upsert_shape now' upsert_sql (params v') tbl1) as Hs2.
  destruct (exec_upsert def now' upsert_sql (params v') tbl1) as [[tbl2 w2] b2].
  cbn [snd] in Hb2. subst b2.
  destruct Hs2 as (pre & t & post & -> & -> & -> & _ & _).
  repeat split. rewrite !length_app. reflexivity.
Qed.



End UpsertProperties.

(** ** More runs on concrete environments *)

Section MoreRuns.
Import Fetch Load Trigger Instances.

Lemma trigger_days_and_dates_witness :
  (days_param ascii_int [("page", "1"); ("days", "5"); ("days", "9")] = 5
   /\ days_param ascii_int [("page", "1")] = 2
   /\ days_param ascii_int [("days", "two")] = 2
   /\ trigger_gsc_sync ascii_int isoformat ascii_upper short_world 3
                       [("days", "two")]
      = trigger_gsc_sync ascii_int isoformat ascii_upper short_world 3
                         [("days", "2")])
  /\ (startDate (nth_body "2026-10-30" "2026-10-30" 0) = isoformat (a_day - 5)
      /\ endDate (nth_body "2026-10-30" "2026-10-30" 0) = isoformat (a_day - 5))
  /\ exists rest,
      gsc_sent (trigger_gsc_sync ascii_int isoformat ascii_upper short_world 3
                                 [("days", "5")])
      = nth_body (isoformat (a_day - 5)) (isoformat (a_day - 5)) 0 :: rest.
Proof.
  pose proof (trigger_days_and_dates ascii_int isoformat ascii_upper eq_refl)
    as (Hused & Hdefault & Hdates & Hfirst).
  split; [split; [|split; [|split]]|split].
  - apply (Hused [("page", "1")] "5" [("days", "9")] 5); reflexivity.
  - apply (Hdefault [("page", "1")]). left. reflexivity.
  - apply (Hdefault [("days", "two")]). right. reflexivity.
  - apply (Hdefault [("days", "two")]). right. reflexivity.
  - apply (Hdates short_world 3%nat [("days", "5")]
                  (nth_body "2026-10-30" "2026-10-30" 0)).
    vm_compute. left. reflexivity.
  - apply (Hfirst short_world 3%nat [("days", "5")]
                  (scripted [Response (Some short_page)])).
    + reflexivity.
    + reflexivity.
    + vm_compute. discriminate.
    + vm_compute. split; [reflexivity|discriminate].
    + repeat constructor.
Defined.

(** C4 fails when [conn.rollback()] raises: on a connection that is dropped
    while the third row is executed, the [except] clause calls [rollback],
    which raises; the cursor and the connection are closed and the
    exception leaves the function.  The counters of the two rows executed
    and the error message are not returned.  Nothing was committed. *)
Theorem load_raises_when_rollback_raises :
  let run := load_data_to_postgres ascii_upper (dropping failing_third)
                                   GSC_SITE_URL (Some dsn) four_rows in
  run = {| result := Escapes "connection already closed";
           trace := [Connect dsn true; Cursor true]
                      ++ executed_ok ascii_upper GSC_SITE_URL
                                     [sample_row; other_row]
                      ++ [Execute Sql.upsert_sql
                                  (row_values ascii_upper GSC_SITE_URL bare_row)
                                  false;
                          Rollback; CursorClose; ConnClose] |}
  /\ (forall i u msg, result run <> Returned i u msg)
  /\ ~ In (Commit true) (trace run).
Proof.
  cbv zeta. split; [reflexivity|]. split.
  - intros i u msg. discriminate.
  - cbn. intuition discriminate.
Qed.

Lemma fetch_rows_are_the_pages_witness :
  @None string = None
  /\ exists n,
      requests (fetch_gsc_data four_pages GSC_SITE_URL day day 4)
      = map (nth_body day day) (seq 0 (S n))
      /\ List.concat [full_page; full_page; full_page] ++ short_page
         = flat_map (fun b => reply_rows (four_pages GSC_SITE_URL b))
                    (requests (fetch_gsc_data four_pages GSC_SITE_URL day day 4))
      /\ (forall i, (i < n)%nat ->
                    ROW_LIMIT_PER_REQUEST
                    <= Z.of_nat (List.length
                                   (reply_rows (four_pages GSC_SITE_URL
                                                           (nth_body day day i)))))
      /\ Z.of_nat (List.length
                     (reply_rows (four_pages GSC_SITE_URL (nth_body day day n))))
         < ROW_LIMIT_PER_REQUEST
      /\ Forall (fun b => reply_error (four_pages GSC_SITE_URL b) = None)
                (requests (fetch_gsc_data four_pages GSC_SITE_URL day day 4)).
Proof.
  apply (fetch_rows_are_the_pages four_pages GSC_SITE_URL day day 4).
  vm_compute. reflexivity.
Defined.

Lemma fetch_fails_only_on_exception_witness :
  (exists r, @None (list gsc_row) = Some r
             /\ Some (http_error_msg "503 Service Unavailable") = None)
  \/ (@None (list gsc_row) = None
      /\ exists before b msg,
          requests (fetch_gsc_data failing_second GSC_SITE_URL day day 5)
          = before ++ [b]
          /\ reply_error (failing_second GSC_SITE_URL b) = Some msg
          /\ Some (http_error_msg "503 Service Unavailable") = Some msg).
Proof.
  apply (fetch_fails_only_on_exception failing_second GSC_SITE_URL day day 5).
  vm_compute. reflexivity.
Defined.

Lemma fetch_does_not_return_on_full_pages_witness :
  returned (fetch_gsc_data endless GSC_SITE_URL day day 3) = None
  /\ List.length (requests (fetch_gsc_data endless GSC_SITE_URL day day 3))
     = 3%nat.
Proof.
  apply (fetch_does_not_return_on_full_pages endless GSC_SITE_URL day day).
  intros b. apply Z.leb_le. reflexivity.
Defined.

Lemma load_success_witness :
  load_data_to_postgres ascii_upper obliging GSC_SITE_URL (Some dsn) four_rows
  = {| result := Returned 2 1 (success_msg 2 1);
       trace := [Connect dsn true; Cursor true]
                  ++ executed_ok ascii_upper GSC_SITE_URL four_rows
                  ++ [Commit true; CursorClose; ConnClose] |}.
Proof.
  apply (load_success ascii_upper obliging GSC_SITE_URL dsn four_rows
           ["INSERT 0 1"; "UPDATE 1"; "INSERT 0 0"; "INSERT 0 1"]);
    try reflexivity.
  discriminate.
Defined.

Lemma load_closes_when_cursor_created_witness :
  (exists before,
      trace (load_data_to_postgres ascii_upper (dropping failing_third)
                                   GSC_SITE_URL (Some dsn) four_rows)
      = before ++ [CursorClose; ConnClose])
  /\ (pg_rollback (dropping failing_third) = Completes ->
      exists i u msg,
        result (load_data_to_postgres ascii_upper (dropping failing_third)
                                      GSC_SITE_URL (Some dsn) four_rows)
        = Returned i u msg).
Proof.
  apply (load_closes_when_cursor_created ascii_upper (dropping failing_third)
           GSC_SITE_URL (Some dsn) four_rows).
  - reflexivity.
  - exists dsn. left. reflexivity.
Defined.

Lemma load_commits_only_after_all_rows_witness :
  executed_values
    (trace (load_data_to_postgres ascii_upper obliging GSC_SITE_URL (Some dsn) four_rows))
  = map (row_values ascii_upper GSC_SITE_URL) four_rows.
Proof.
  apply (load_commits_only_after_all_rows ascii_upper obliging GSC_SITE_URL (Some dsn)
           four_rows).
  vm_compute. do 6 right. left. reflexivity.
Defined.

Lemma load_message_tells_commit_witness :
  PyStr.contains "ERRO" (error_msg "null value in column data") = false
  <-> (four_rows = []
       \/ In (Commit true)
             (trace (load_data_to_postgres ascii_upper failing_third GSC_SITE_URL
                                           (Some dsn) four_rows))).
Proof.
  apply (load_message_tells_commit ascii_upper failing_third GSC_SITE_URL (Some dsn)
           four_rows 1 1).
  reflexivity.
Defined.

Lemma trigger_success_means_committed_witness :
  In (Commit true)
     (store_calls (trigger_gsc_sync ascii_int isoformat ascii_upper short_world 3
                                    [("days", "2")])).
Proof.
  destruct (trigger_success_means_committed ascii_int isoformat ascii_upper short_world 3
              [("days", "2")] short_world_body)
    as (svc & rows & i & u & msg & _ & _ & _ & _ & _ & _ & [[_ Hnone]|Hc]).
  - vm_compute. reflexivity.
  - vm_compute in Hnone. discriminate Hnone.
  - exact Hc.
Defined.

Lemma trigger_fetch_failure_skips_store_witness :
  response (trigger_gsc_sync ascii_int isoformat ascii_upper failing_world 5 [])
  = Some (Jsonify [("status", JStr "error");
                   ("message",
                    JStr ("GSC Fetch Failed: "
                            ++ http_error_msg "503 Service Unavailable")%string)]
                  500)
  /\ store_calls (trigger_gsc_sync ascii_int isoformat ascii_upper failing_world 5 []) = [].
Proof.
  apply (trigger_fetch_failure_skips_store ascii_int isoformat ascii_upper failing_world 5
           [] failing_second (nth_body day day 1)).
  - reflexivity.
  - vm_compute. right. left. reflexivity.
  - reflexivity.
Defined.

Lemma trigger_nothing_to_load_witness :
  trigger_gsc_sync ascii_int isoformat ascii_upper empty_world 1 []
  = {| response := Some (Jsonify
         [("status", JStr "success");
          ("message", JStr no_data_msg);
          ("date_processed", JStr (isoformat (a_day - 2)));
          ("rows_found", JInt 0);
          ("inserted", JInt 0); ("updated", JInt 0)] 200);
       gsc_sent := [nth_body (isoformat (a_day - 2)) (isoformat (a_day - 2)) 0];
       store_calls := [] |}.
Proof.
  apply (trigger_nothing_to_load ascii_int isoformat ascii_upper empty_world 1 []
           (scripted [Response None]) None);
    try reflexivity.
  repeat constructor.
Defined.

Lemma trigger_store_needs_rows_witness :
  exists svc rows dsn' ok rest,
    google short_world GCP_KEY_PATH GSC_SCOPES = Built svc
    /\ returned (fetch_gsc_data svc GSC_SITE_URL (isoformat (a_day - 2))
                                (isoformat (a_day - 2)) 3)
       = Some (Some rows, None)
    /\ rows <> []
    /\ DATABASE_URL short_world = Some dsn'
    /\ store_calls (trigger_gsc_sync ascii_int isoformat ascii_upper short_world 3 [])
       = Connect dsn' ok :: rest.
Proof.
  apply (trigger_store_needs_rows ascii_int isoformat ascii_upper short_world 3 []).
  vm_compute. discriminate.
Defined.

Lemma trigger_date_out_of_range_witness :
  trigger_gsc_sync ascii_int isoformat ascii_upper short_world 3 [("days", "739924")]
  = {| response := Some (Unhandled "OverflowError");
       gsc_sent := []; store_calls := [] |}.
Proof.
  apply (trigger_date_out_of_range ascii_int isoformat ascii_upper short_world 3
           [("days", "739924")] (scripted [Response (Some short_page)]));
    try reflexivity.
  left. vm_compute. discriminate.
Defined.

Lemma trigger_authentication_failure_witness :
  exists msg,
    authenticate_gsc (google keyless_world) GCP_KEY_PATH GSC_SCOPES
    = (None, Some msg)
    /\ PyStr.contains "ERRO" msg = true
    /\ (RaisesFileNotFoundError = RaisesFileNotFoundError ->
        PyStr.contains GCP_KEY_PATH msg = true)
    /\ trigger_gsc_sync ascii_int isoformat ascii_upper keyless_world 3 []
       = {| response := Some (Jsonify
              [("status", JStr "error");
               ("message",
                JStr ("GSC Authentication Failed: " ++ msg)%string)] 500);
            gsc_sent := []; store_calls := [] |}.
Proof.
  apply (trigger_authentication_failure ascii_int isoformat ascii_upper keyless_world 3 []).
  reflexivity.
Defined.

Lemma upsert_second_load_updates_witness :
  let v := row_values ascii_upper GSC_SITE_URL sample_row in
  let v' := row_values ascii_upper GSC_SITE_URL
                       {| row_keys := row_keys sample_row;
                          row_clicks := Some 5; row_impressions := Some 50;
                          row_ctr := Some (1 # 10);
                          row_position := Some (3 # 1) |} in
  let '(tbl1, _, _) :=
    Pg.exec_upsert stamped 100 Sql.upsert_sql (Pg.params v) [] in
  let '(tbl2, written, conflict) :=
    Pg.exec_upsert stamped 200 Sql.upsert_sql (Pg.params v') tbl1 in
  conflict = true
  /\ List.length tbl2 = List.length tbl1
  /\ written Sql.clicks = Pg.Integer 5
  /\ written Sql.impressions = Pg.Integer 50
  /\ written Sql.ctr = Pg.Numeric (1 # 10)
  /\ written Sql.position = Pg.Numeric (3 # 1)
  /\ written Sql.data_extracao = Pg.Timestamp 200.
Proof.
  apply (upsert_second_load_updates stamped 100 200
           (row_values ascii_upper GSC_SITE_URL sample_row) "2026-11-02"
           5 50 (1 # 10) (3 # 1) []).
  reflexivity.
Defined.


(** Without a date the key holds [NULL], which the unique index takes as
    different from every value: loading the row without keys twice stores
    two rows that hold the same values in all six key columns. *)
Example upsert_without_date_twice :
  let v := row_values ascii_upper GSC_SITE_URL bare_row in
  let '(tbl1, _, _) :=
    Pg.exec_upsert stamped 100 Sql.upsert_sql (Pg.params v) [] in
  let '(tbl2, _, conflict) :=
    Pg.exec_upsert stamped 200 Sql.upsert_sql (Pg.params v) tbl1 in
  conflict = false /\ List.length tbl2 = 2%nat
  /\ ~ Pg.distinct_keys Sql.upsert_sql tbl2.
Proof.
  cbn. split; [reflexivity|]. split; [reflexivity|].
  intros [Hall _]. inversion Hall as [|? ? Hne _]; subst.
  apply Hne. intros c Hc.
  destruct c; try reflexivity; cbn in Hc; exfalso; intuition discriminate.
Qed.

End MoreRuns.
